(** * TomTom readers of mappymatch: from road links to a routable graph

    Shallow embedding of [yamm/maps/nx/readers/tomtom_readers.py].

    - pandas columns of type float64 are IEEE binary64 numbers, the
      primitive floats of Rocq; a missing cell is a NaN;
    - a geo dataframe is the list of its rows together with its
      coordinate reference system;
    - the networkx [MultiDiGraph] is a finite set of nodes, a finite map
      from (from, to, key) to the attribute dictionary of the edge, and the
      graph-level attribute dictionary;
    - raising an exception is returning [Err]; the sql connection is the
      answer it gives to the two queries of the readers, and the reader
      runs in a small monad that records every query it sends. *)

From Stdlib Require Import Floats.
From stdpp Require Import gmap strings list fin_maps pretty.

Set Warnings "-inexact-float,-clear-no-such-hyp".

(** ** Coordinate reference systems and geometries *)

Inductive CRS := EPSG (code : Z).

Global Instance CRS_eq_dec : EqDecision CRS.
Proof. solve_decision. Defined.

(** [yamm.utils.crs.LATLON_CRS]; the reader names it in its own error
    message: "the geofence must in the epsg:4326 crs". *)
Definition LATLON_CRS : CRS := EPSG 4326.

Definition Coord : Type := float * float.

(** A shapely [LineString], given by its coordinate sequence [g.coords]. *)
Record LineString := { coords : list Coord }.

(** [LineString(reversed(g.coords))] *)
Definition reversed_LineString (g : LineString) : LineString :=
  {| coords := reverse (coords g) |}.

(** A geofence: its crs and the ring of its boundary. *)
Module Geofence.
Record t := { crs : CRS; geometry : LineString }.
End Geofence.

(** What this file takes from outside the readers: the projected system
    [yamm.utils.crs.XY_CRS] and the reprojection of one coordinate done by
    [GeoDataFrame.to_crs]. *)
Class Collaborators := {
  XY_CRS : CRS;
  transform : CRS → CRS → Coord → Coord
}.

(** ** Python values, exceptions *)

(** [vintage: Union[int, str]] *)
Inductive PyValue := PyInt (z : Z) | PyStr (s : string).

Global Instance PyValue_eq_dec : EqDecision PyValue.
Proof. solve_decision. Defined.

(** [v == s] for a string literal [s]: an int never equals a string. *)
Definition py_eq_str (v : PyValue) (s : string) : bool :=
  match v with
  | PyStr s' => bool_decide (s' = s)
  | PyInt _ => false
  end.

(** The texts of the exceptions the readers can raise. *)
Inductive Message :=
| geofence_crs_msg (got : CRS)
    (* "the geofence must in the epsg:4326 crs but got ..." *)
| vintage_msg (vintage : PyValue)
    (* "vintage ... not supported; must be either '2021' or '2017'" *)
| no_links_msg
    (* "road network has no links; check geofence boundaries" *)
| not_routable_msg
    (* "road network has no strongly connected components and is not
       routable; check polygon boundaries." *)
| max_empty_msg
    (* max() of an iterable that yields nothing *)
| naive_crs_msg
    (* to_crs() of a frame that has no crs *)
| index_msg.
    (* list index out of range *)

Inductive Exception :=
| TypeError (m : Message)
| MapException (m : Message)
| ValueError (m : Message)
| IndexError (m : Message).

Inductive Result (A : Type) :=
| Ok (a : A)
| Err (e : Exception).
Arguments Ok {A} a.
Arguments Err {A} e.

Definition bind_result {A B} (r : Result A) (k : A → Result B) : Result B :=
  match r with
  | Ok a => k a
  | Err e => Err e
  end.

Declare Scope result_scope.
Delimit Scope result_scope with result.
Notation "'do' x <- r ; k" := (bind_result r (λ x, k))
  (at level 10, x name, r at level 100, k at level 200) : result_scope.

(** Runs [f] on the elements from left to right and stops at the first
    exception, as a loop or [Series.apply] does. *)
Fixpoint traverse {A B} (f : A → Result B) (l : list A) : Result (list B) :=
  match l with
  | [] => Ok []
  | a :: l' =>
      (do b <- f a;
       do bs <- traverse f l';
       Ok (b :: bs))%result
  end.

(** ** Data frames *)

Module GeoDataFrame.
Record t (R : Type) := { rows : list R; crs : option CRS }.
Arguments rows {R} _.
Arguments crs {R} _.
(** [gdf.empty] *)
Definition empty {R} (gdf : t R) : bool :=
  match rows gdf with [] => true | _ => false end.
End GeoDataFrame.

(** [Series.fillna(d)] on one float cell. *)
Definition fillna (d x : float) : float :=
  if PrimFloat.is_nan x then d else x.

(** An edge key and a road id: an integer or a string. *)
Inductive RoadId := IntId (z : Z) | StrId (s : string).

Global Instance RoadId_eq_dec : EqDecision RoadId.
Proof. solve_decision. Defined.

Global Program Instance RoadId_countable : Countable RoadId :=
  inj_countable'
    (λ k, match k with IntId z => inl z | StrId s => inr s end)
    (λ x, match x with inl z => IntId z | inr s => StrId s end) _.
Next Obligation. by intros []. Qed.

(** A row of [tomtom_2021.network], with the columns the readers use and
    the three columns [get_tomtom_gdf_2021] adds. *)
Module Row2021.
Record t := {
  junction_id_from : Z;
  junction_id_to : Z;
  netw_id : RoadId;
  simple_traffic_direction : Z;
  centimeters : float;
  speed_average_neg : float;
  speed_average_pos : float;
  geom : LineString;
  kilometers : float;
  neg_minutes : float;
  pos_minutes : float
}.
End Row2021.

(** A row of [tomtom_multinet_2017.multinet_2017]: the twelve selected
    columns and the column [kilometers] that [get_tomtom_gdf_2017] adds. *)
Module Row2017.
Record t := {
  id : Z;
  f_jnctid : Z;
  t_jnctid : Z;
  frc : Z;
  backrd : Z;
  rdcond : Z;
  privaterd : Z;
  roughrd : Z;
  meters : float;
  minutes : float;
  oneway : string;
  wkb_geometry : LineString;
  kilometers : float
}.
End Row2017.

(** ** The sql connection *)

(** The two [select] statements of the readers; each is determined by the
    geofence whose crs and wkt it interpolates. *)
Inductive SqlQuery :=
| select_network_2021 (geofence : Geofence.t)
| select_multinet_2017 (geofence : Geofence.t).

(** A connection is what the database answers to these queries through
    [GeoDataFrame.from_postgis]. The derived columns of the rows it returns
    are not read before the reader has set them. *)
Record Engine := {
  network_2021 : Geofence.t → GeoDataFrame.t Row2021.t;
  multinet_2017 : Geofence.t → GeoDataFrame.t Row2017.t
}.

(** Computations that may query the database and may raise: the queries
    sent so far are threaded through. *)
Definition Sql (A : Type) : Type :=
  list SqlQuery → list SqlQuery * Result A.

Definition ret {A} (a : A) : Sql A := λ log, (log, Ok a).
Definition raise {A} (e : Exception) : Sql A := λ log, (log, Err e).
Definition bind {A B} (c : Sql A) (k : A → Sql B) : Sql B :=
  λ log,
    match c log with
    | (log', Ok a) => k a log'
    | (log', Err e) => (log', Err e)
    end.
Definition lift {A} (r : Result A) : Sql A := λ log, (log, r).

Declare Scope sql_scope.
Delimit Scope sql_scope with sql.
Notation "'run' x <- c ; k" := (bind c (λ x, k))
  (at level 10, x name, c at level 100, k at level 200) : sql_scope.

Definition from_postgis_2021 (con : Engine) (geofence : Geofence.t)
  : Sql (GeoDataFrame.t Row2021.t) :=
  λ log, (log ++ [select_network_2021 geofence], Ok (network_2021 con geofence)).

Definition from_postgis_2017 (con : Engine) (geofence : Geofence.t)
  : Sql (GeoDataFrame.t Row2017.t) :=
  λ log, (log ++ [select_multinet_2017 geofence], Ok (multinet_2017 con geofence)).

(** ** Normalisation: the two [get_tomtom_gdf] functions *)

Section Readers.
Context `{Collaborators}.

(** [if not gdf.crs: gdf.crs = LATLON_CRS] *)
Definition default_crs {R} (gdf : GeoDataFrame.t R) : GeoDataFrame.t R :=
  match GeoDataFrame.crs gdf with
  | Some _ => gdf
  | None => {| GeoDataFrame.rows := GeoDataFrame.rows gdf;
               GeoDataFrame.crs := Some LATLON_CRS |}
  end.

(** [gdf.to_crs(target)]: every geometry is reprojected and the frame takes
    the target system; geopandas raises on a frame without a crs.
    [set_geometry f r] is the row [r] with [f] applied to its geometry
    cell. *)
Definition to_crs {R} (set_geometry : (LineString → LineString) → R → R)
    (target : CRS) (gdf : GeoDataFrame.t R) : Result (GeoDataFrame.t R) :=
  match GeoDataFrame.crs gdf with
  | None => Err (ValueError naive_crs_msg)
  | Some source =>
      Ok {| GeoDataFrame.rows :=
              map (set_geometry
                     (λ g, {| coords := map (transform source target) (coords g) |}))
                  (GeoDataFrame.rows gdf);
            GeoDataFrame.crs := Some target |}
  end.

Definition set_geom_2021 (f : LineString → LineString) (r : Row2021.t)
  : Row2021.t :=
  {| Row2021.junction_id_from := Row2021.junction_id_from r;
     Row2021.junction_id_to := Row2021.junction_id_to r;
     Row2021.netw_id := Row2021.netw_id r;
     Row2021.simple_traffic_direction := Row2021.simple_traffic_direction r;
     Row2021.centimeters := Row2021.centimeters r;
     Row2021.speed_average_neg := Row2021.speed_average_neg r;
     Row2021.speed_average_pos := Row2021.speed_average_pos r;
     Row2021.geom := f (Row2021.geom r);
     Row2021.kilometers := Row2021.kilometers r;
     Row2021.neg_minutes := Row2021.neg_minutes r;
     Row2021.pos_minutes := Row2021.pos_minutes r |}.

Definition set_geom_2017 (f : LineString → LineString) (r : Row2017.t)
  : Row2017.t :=
  {| Row2017.id := Row2017.id r;
     Row2017.f_jnctid := Row2017.f_jnctid r;
     Row2017.t_jnctid := Row2017.t_jnctid r;
     Row2017.frc := Row2017.frc r;
     Row2017.backrd := Row2017.backrd r;
     Row2017.rdcond := Row2017.rdcond r;
     Row2017.privaterd := Row2017.privaterd r;
     Row2017.roughrd := Row2017.roughrd r;
     Row2017.meters := Row2017.meters r;
     Row2017.minutes := Row2017.minutes r;
     Row2017.oneway := Row2017.oneway r;
     Row2017.wkb_geometry := f (Row2017.wkb_geometry r);
     Row2017.kilometers := Row2017.kilometers r |}.

(** Lines 78 to 83, on one row: the two speeds are filled, then the three
    columns are derived from the filled speeds. *)
Definition add_columns_2021 (r : Row2021.t) : Row2021.t :=
  let speed_average_neg := fillna 20 (Row2021.speed_average_neg r) in
  let speed_average_pos := fillna 20 (Row2021.speed_average_pos r) in
  let kilometers := (Row2021.centimeters r * 0.00001)%float in
  {| Row2021.junction_id_from := Row2021.junction_id_from r;
     Row2021.junction_id_to := Row2021.junction_id_to r;
     Row2021.netw_id := Row2021.netw_id r;
     Row2021.simple_traffic_direction := Row2021.simple_traffic_direction r;
     Row2021.centimeters := Row2021.centimeters r;
     Row2021.speed_average_neg := speed_average_neg;
     Row2021.speed_average_pos := speed_average_pos;
     Row2021.geom := Row2021.geom r;
     Row2021.kilometers := kilometers;
     Row2021.neg_minutes := ((kilometers / speed_average_neg) * 60)%float;
     Row2021.pos_minutes := ((kilometers / speed_average_pos) * 60)%float |}.

Definition get_tomtom_gdf_2021 (sql_con : Engine) (geofence : Geofence.t)
    (xy : bool) : Sql (GeoDataFrame.t Row2021.t) :=
  (run gdf <- from_postgis_2021 sql_con geofence;
   if GeoDataFrame.empty gdf then raise (MapException no_links_msg)
   else
     let gdf := default_crs gdf in
     let gdf := {| GeoDataFrame.rows := map add_columns_2021 (GeoDataFrame.rows gdf);
                   GeoDataFrame.crs := GeoDataFrame.crs gdf |} in
     if xy then lift (to_crs set_geom_2021 XY_CRS gdf) else ret gdf)%sql.

(** [raw_gdf["kilometers"] = raw_gdf.meters / 1000] on one row. *)
Definition add_kilometers_2017 (r : Row2017.t) : Row2017.t :=
  {| Row2017.id := Row2017.id r;
     Row2017.f_jnctid := Row2017.f_jnctid r;
     Row2017.t_jnctid := Row2017.t_jnctid r;
     Row2017.frc := Row2017.frc r;
     Row2017.backrd := Row2017.backrd r;
     Row2017.rdcond := Row2017.rdcond r;
     Row2017.privaterd := Row2017.privaterd r;
     Row2017.roughrd := Row2017.roughrd r;
     Row2017.meters := Row2017.meters r;
     Row2017.minutes := Row2017.minutes r;
     Row2017.oneway := Row2017.oneway r;
     Row2017.wkb_geometry := Row2017.wkb_geometry r;
     Row2017.kilometers := (Row2017.meters r / 1000)%float |}.

(** [DataFrame.fillna(0)] on one row: the float cells are the ones that can
    be missing. *)
Definition fillna_2017 (r : Row2017.t) : Row2017.t :=
  {| Row2017.id := Row2017.id r;
     Row2017.f_jnctid := Row2017.f_jnctid r;
     Row2017.t_jnctid := Row2017.t_jnctid r;
     Row2017.frc := Row2017.frc r;
     Row2017.backrd := Row2017.backrd r;
     Row2017.rdcond := Row2017.rdcond r;
     Row2017.privaterd := Row2017.privaterd r;
     Row2017.roughrd := Row2017.roughrd r;
     Row2017.meters := fillna 0 (Row2017.meters r);
     Row2017.minutes := fillna 0 (Row2017.minutes r);
     Row2017.oneway := Row2017.oneway r;
     Row2017.wkb_geometry := Row2017.wkb_geometry r;
     Row2017.kilometers := fillna 0 (Row2017.kilometers r) |}.

(** [raw_gdf[(raw_gdf.rdcond < 2) & (raw_gdf.frc < 8)]] *)
Definition usable_2017 (r : Row2017.t) : Prop :=
  (Row2017.rdcond r < 2)%Z ∧ (Row2017.frc r < 8)%Z.

Global Instance usable_2017_dec r : Decision (usable_2017 r).
Proof. unfold usable_2017. apply _. Defined.

Definition get_tomtom_gdf_2017 (sql_con : Engine) (geofence : Geofence.t)
    (xy : bool) : Sql (GeoDataFrame.t Row2017.t) :=
  (run raw_gdf <- from_postgis_2017 sql_con geofence;
   if GeoDataFrame.empty raw_gdf then raise (MapException no_links_msg)
   else
     let raw_gdf := default_crs raw_gdf in
     let raw_gdf :=
       {| GeoDataFrame.rows := map add_kilometers_2017 (GeoDataFrame.rows raw_gdf);
          GeoDataFrame.crs := GeoDataFrame.crs raw_gdf |} in
     let raw_gdf :=
       {| GeoDataFrame.rows :=
            map fillna_2017 (filter usable_2017 (GeoDataFrame.rows raw_gdf));
          GeoDataFrame.crs := GeoDataFrame.crs raw_gdf |} in
     if xy then lift (to_crs set_geom_2017 XY_CRS raw_gdf) else ret raw_gdf)%sql.

End Readers.

(** ** The networkx multigraph *)

(** The attribute dictionary of an edge: the readers always set the same
    four keys, "kilometers", "minutes", "geom" and "road_id". *)
Module EdgeData.
Record t := {
  kilometers : float;
  minutes : float;
  geom : LineString;
  road_id : RoadId
}.
End EdgeData.

(** An element of the lists given to [add_edges_from]: [(u, v, key, data)]. *)
Definition Edge : Type := Z * Z * RoadId * EdgeData.t.

Definition edge_from (e : Edge) : Z := e.1.1.1.
Definition edge_to (e : Edge) : Z := e.1.1.2.
Definition edge_key (e : Edge) : RoadId := e.1.2.
Definition edge_data (e : Edge) : EdgeData.t := e.2.

(** A value of the graph-level dictionary [G.graph]. *)
Inductive GraphAttr :=
| crs_attr (c : option CRS)
| str_attr (s : string).

Record MultiDiGraph := {
  graph : gmap string GraphAttr;
  nodes : gset Z;
  edges : gmap (Z * Z * RoadId) EdgeData.t
}.

(** [nx.MultiDiGraph()] *)
Definition empty_graph : MultiDiGraph :=
  {| graph := ∅; nodes := ∅; edges := ∅ |}.

(** [G.add_edge(u, v, key)] followed by the update of the edge's dictionary:
    both endpoints become nodes, and an edge already stored under
    [(u, v, key)] has its four values replaced. *)
Definition add_edge (G : MultiDiGraph) (e : Edge) : MultiDiGraph :=
  {| graph := graph G;
     nodes := {[edge_from e]} ∪ {[edge_to e]} ∪ nodes G;
     edges := <[(edge_from e, edge_to e, edge_key e) := edge_data e]> (edges G) |}.

(** [G.add_edges_from(ebunch)] *)
Definition add_edges_from (G : MultiDiGraph) (ebunch : list Edge) : MultiDiGraph :=
  foldl add_edge G ebunch.

(** *** Strongly connected components *)

(** The ordered pairs of nodes joined by at least one edge. *)
Definition arcs (G : MultiDiGraph) : gset (Z * Z) :=
  set_map (λ e : Z * Z * RoadId, e.1) (dom (edges G)).

Definition successors (G : MultiDiGraph) (R : gset Z) : gset Z :=
  set_map snd (filter (λ a : Z * Z, a.1 ∈ R) (arcs G)).

(** Adds successors until nothing new comes. *)
Fixpoint closure (fuel : nat) (G : MultiDiGraph) (R : gset Z) : gset Z :=
  match fuel with
  | O => R
  | S fuel' =>
      let R' := R ∪ successors G R in
      if decide (R' ⊆ R) then R else closure fuel' G R'
  end.

(** Every round but the last brings in a node that some edge points to, so
    one round more than there are such nodes is enough. *)
Definition descendants (G : MultiDiGraph) (u : Z) : gset Z :=
  closure (S (size (set_map (D:=gset Z) snd (arcs G)))) G {[u]}.

(** The nodes that [u] reaches and that reach [u]. *)
Definition component_of (G : MultiDiGraph) (u : Z) : gset Z :=
  filter (λ v, u ∈ descendants G v) (descendants G u).

Fixpoint components_from (G : MultiDiGraph) (todo : list Z) (seen : gset Z)
  : list (gset Z) :=
  match todo with
  | [] => []
  | u :: todo' =>
      if decide (u ∈ seen) then components_from G todo' seen
      else
        let c := component_of G u in
        c :: components_from G todo' (seen ∪ c)
  end.

(** [nx.strongly_connected_components(G)]: the node sets of the strongly
    connected components, each once. networkx yields them lazily, in the
    order of its own traversal; here they are listed by the first node of
    each in [elements (nodes G)]. *)
Definition strongly_connected_components (G : MultiDiGraph) : list (gset Z) :=
  components_from G (elements (nodes G)) ∅.

(** The truth value of a generator object: it has neither [__bool__] nor
    [__len__], so it is true whatever it is going to yield. *)
Definition generator_truth {A} (gen : list A) : bool := true.

(** [max(iterable, key=len)]: the first of the longest elements, and a
    [ValueError] when there is none. *)
Definition max_key_len (l : list (gset Z)) : Result (gset Z) :=
  match l with
  | [] => Err (ValueError max_empty_msg)
  | c :: l' =>
      Ok (foldl (λ best x, if decide (size best < size x) then x else best) c l')
  end.

(** [nx.MultiDiGraph(G.subgraph(c))]: the nodes of [G] that are in [c], the
    edges of [G] between them, and a copy of the graph-level dictionary. *)
Definition subgraph (G : MultiDiGraph) (c : gset Z) : MultiDiGraph :=
  {| graph := graph G;
     nodes := nodes G ∩ c;
     edges := filter (λ kv : Z * Z * RoadId * EdgeData.t,
                        kv.1.1.1 ∈ c ∧ kv.1.1.2 ∈ c) (edges G) |}.

(** Lines 237 to 245, the same as lines 365 to 373. *)
Definition largest_component (G : MultiDiGraph) : Result MultiDiGraph :=
  let sg_components := strongly_connected_components G in
  if negb (generator_truth sg_components) then
    Err (MapException not_routable_msg)
  else
    (do c <- max_key_len sg_components;
     Ok (subgraph G c))%result.

(** Lines 247 to 251, the same as lines 375 to 379. *)
Definition set_graph_attributes (crs : option CRS) (G : MultiDiGraph)
  : MultiDiGraph :=
  {| graph :=
       <["road_id_key" := str_attr "road_id"]>
         (<["geometry_key" := str_attr "geom"]>
            (<["time_weight" := str_attr "minutes"]>
               (<["distance_weight" := str_attr "kilometers"]>
                  (<["crs" := crs_attr crs]> (graph G)))));
     nodes := nodes G;
     edges := edges G |}.

(** ** Building the graph, 2021 *)

(** The three masks of lines 140 to 142. *)
Definition oneway_ft_2021 (gdf : GeoDataFrame.t Row2021.t) : list Row2021.t :=
  filter (λ r, Row2021.simple_traffic_direction r = 2%Z) (GeoDataFrame.rows gdf).
Definition oneway_tf_2021 (gdf : GeoDataFrame.t Row2021.t) : list Row2021.t :=
  filter (λ r, Row2021.simple_traffic_direction r = 3%Z) (GeoDataFrame.rows gdf).
Definition twoway_2021 (gdf : GeoDataFrame.t Row2021.t) : list Row2021.t :=
  filter (λ r, Row2021.simple_traffic_direction r ∈ [1%Z; 9%Z]) (GeoDataFrame.rows gdf).

(** The element of a "tf" comprehension for one row: from [t] to [f], the
    negative-direction minutes, the reversed geometry. *)
Definition edge_tf_2021 (r : Row2021.t) : Edge :=
  (Row2021.junction_id_to r, Row2021.junction_id_from r, Row2021.netw_id r,
   {| EdgeData.kilometers := Row2021.kilometers r;
      EdgeData.minutes := Row2021.neg_minutes r;
      EdgeData.geom := reversed_LineString (Row2021.geom r);
      EdgeData.road_id := Row2021.netw_id r |}).

(** The element of an "ft" comprehension for one row. *)
Definition edge_ft_2021 (r : Row2021.t) : Edge :=
  (Row2021.junction_id_from r, Row2021.junction_id_to r, Row2021.netw_id r,
   {| EdgeData.kilometers := Row2021.kilometers r;
      EdgeData.minutes := Row2021.pos_minutes r;
      EdgeData.geom := Row2021.geom r;
      EdgeData.road_id := Row2021.netw_id r |}).

Definition twoway_edges_tf_2021 gdf : list Edge := map edge_tf_2021 (twoway_2021 gdf).
Definition twoway_edges_ft_2021 gdf : list Edge := map edge_ft_2021 (twoway_2021 gdf).
Definition oneway_edges_ft_2021 gdf : list Edge := map edge_ft_2021 (oneway_ft_2021 gdf).
Definition oneway_edges_tf_2021 gdf : list Edge := map edge_tf_2021 (oneway_tf_2021 gdf).

(** The edges of a frame in the order in which lines 232 to 235 add them. *)
Definition expand_2021 (gdf : GeoDataFrame.t Row2021.t) : list Edge :=
  twoway_edges_tf_2021 gdf ++ twoway_edges_ft_2021 gdf ++
  oneway_edges_ft_2021 gdf ++ oneway_edges_tf_2021 gdf.

(** Lines 231 to 235. *)
Definition built_graph_2021 (gdf : GeoDataFrame.t Row2021.t) : MultiDiGraph :=
  let G := empty_graph in
  let G := add_edges_from G (twoway_edges_tf_2021 gdf) in
  let G := add_edges_from G (twoway_edges_ft_2021 gdf) in
  let G := add_edges_from G (oneway_edges_ft_2021 gdf) in
  let G := add_edges_from G (oneway_edges_tf_2021 gdf) in
  G.

Definition tomtom_gdf_to_nx_graph_2021 (gdf : GeoDataFrame.t Row2021.t)
  : Result MultiDiGraph :=
  (do G <- largest_component (built_graph_2021 gdf);
   Ok (set_graph_attributes (GeoDataFrame.crs gdf) G))%result.

(** ** Building the graph, 2017 *)

(** Lines 266 to 269 on one row: the first and the last coordinate of the
    geometry; indexing the coordinate list of an empty geometry raises. The
    four columns are not read afterwards. *)
Definition end_points_2017 (r : Row2017.t) : Result (Coord * Coord) :=
  match head (coords (Row2017.wkb_geometry r)),
        last (coords (Row2017.wkb_geometry r)) with
  | Some c0, Some cn => Ok (c0, cn)
  | _, _ => Err (IndexError index_msg)
  end.

(** The three masks of lines 270 to 272. *)
Definition oneway_ft_2017 (gdf : GeoDataFrame.t Row2017.t) : list Row2017.t :=
  filter (λ r, Row2017.oneway r = "FT") (GeoDataFrame.rows gdf).
Definition oneway_tf_2017 (gdf : GeoDataFrame.t Row2017.t) : list Row2017.t :=
  filter (λ r, Row2017.oneway r = "TF") (GeoDataFrame.rows gdf).
Definition twoway_2017 (gdf : GeoDataFrame.t Row2017.t) : list Row2017.t :=
  filter (λ r, ¬ Row2017.oneway r = "FT" ∧ ¬ Row2017.oneway r = "TF")
         (GeoDataFrame.rows gdf).

(** [str(k)] of an int: its decimal digits, after a minus sign when it is
    negative. *)
Definition str (k : Z) : string := pretty k.

Definition edge_tf_2017 (r : Row2017.t) : Edge :=
  (Row2017.t_jnctid r, Row2017.f_jnctid r, IntId (- Row2017.id r),
   {| EdgeData.kilometers := Row2017.kilometers r;
      EdgeData.minutes := Row2017.minutes r;
      EdgeData.geom := reversed_LineString (Row2017.wkb_geometry r);
      EdgeData.road_id := StrId (str (- Row2017.id r)) |}).

Definition edge_ft_2017 (r : Row2017.t) : Edge :=
  (Row2017.f_jnctid r, Row2017.t_jnctid r, IntId (Row2017.id r),
   {| EdgeData.kilometers := Row2017.kilometers r;
      EdgeData.minutes := Row2017.minutes r;
      EdgeData.geom := Row2017.wkb_geometry r;
      EdgeData.road_id := StrId (str (Row2017.id r)) |}).

Definition twoway_edges_tf_2017 gdf : list Edge := map edge_tf_2017 (twoway_2017 gdf).
Definition twoway_edges_ft_2017 gdf : list Edge := map edge_ft_2017 (twoway_2017 gdf).
Definition oneway_edges_ft_2017 gdf : list Edge := map edge_ft_2017 (oneway_ft_2017 gdf).
Definition oneway_edges_tf_2017 gdf : list Edge := map edge_tf_2017 (oneway_tf_2017 gdf).

(** The edges of a frame in the order in which lines 360 to 363 add them. *)
Definition expand_2017 (gdf : GeoDataFrame.t Row2017.t) : list Edge :=
  twoway_edges_tf_2017 gdf ++ twoway_edges_ft_2017 gdf ++
  oneway_edges_ft_2017 gdf ++ oneway_edges_tf_2017 gdf.

(** Lines 359 to 363. *)
Definition built_graph_2017 (gdf : GeoDataFrame.t Row2017.t) : MultiDiGraph :=
  let G := empty_graph in
  let G := add_edges_from G (twoway_edges_tf_2017 gdf) in
  let G := add_edges_from G (twoway_edges_ft_2017 gdf) in
  let G := add_edges_from G (oneway_edges_ft_2017 gdf) in
  let G := add_edges_from G (oneway_edges_tf_2017 gdf) in
  G.

(** The three [astype(int)] of lines 263 to 265 leave integer cells as they
    are. *)
Definition tomtom_gdf_to_nx_graph_2017 (gdf : GeoDataFrame.t Row2017.t)
  : Result MultiDiGraph :=
  (do _ends <- traverse end_points_2017 (GeoDataFrame.rows gdf);
   do G <- largest_component (built_graph_2017 gdf);
   Ok (set_graph_attributes (GeoDataFrame.crs gdf) G))%result.

(** ** The reader *)

(** Modelled from the spec: the class [NxMap] of [yamm.maps.nx.nx_map] is
    not among the sources; the spec makes the graph the only artifact that
    is returned, so an [NxMap] is the graph it was made from. *)
Record NxMap := { g : MultiDiGraph }.

Section Reader.
Context `{Collaborators}.

Definition read_tomtom_nxmap_from_sql (sql_connection : Engine)
    (geofence : Geofence.t) (vintage : PyValue) (xy : bool) : Sql NxMap :=
  if negb (bool_decide (Geofence.crs geofence = LATLON_CRS)) then
    raise (TypeError (geofence_crs_msg (Geofence.crs geofence)))
  else
    (run g <-
       (if py_eq_str vintage "2021" then
          (run gdf <- get_tomtom_gdf_2021 sql_connection geofence xy;
           lift (tomtom_gdf_to_nx_graph_2021 gdf))
        else if py_eq_str vintage "2017" then
          (run gdf <- get_tomtom_gdf_2017 sql_connection geofence xy;
           lift (tomtom_gdf_to_nx_graph_2017 gdf))
        else
          raise (TypeError (vintage_msg vintage)));
     ret {| g := g |})%sql.

End Reader.

(** ** Paths *)

(** There is an edge from [u] to [v], under some key. *)
Definition arc (G : MultiDiGraph) (u v : Z) : Prop :=
  ∃ k, is_Some (edges G !! (u, v, k)).

(** There is a directed path from [u] to [v]. *)
Definition path (G : MultiDiGraph) : Z → Z → Prop := rtc (arc G).

Definition strongly_connected (G : MultiDiGraph) : Prop :=
  ∀ u v, u ∈ nodes G → v ∈ nodes G → path G u v.

(** The endpoints of every edge are nodes. *)
Definition well_formed (G : MultiDiGraph) : Prop :=
  ∀ u v k, is_Some (edges G !! (u, v, k)) → u ∈ nodes G ∧ v ∈ nodes G.

(** ** Sample data *)

(** Sample collaborators: the projected system is EPSG:3857 and the
    reprojection leaves the coordinates as they are. *)
Definition web_mercator : Collaborators :=
  {| XY_CRS := EPSG 3857; transform := λ _ _ c, c |}.

Definition fence_latlon : Geofence.t :=
  {| Geofence.crs := EPSG 4326;
     Geofence.geometry := {| coords := [(0, 0); (0, 1); (1, 1); (0, 0)]%float |} |}.

Definition fence_mercator : Geofence.t :=
  {| Geofence.crs := EPSG 3857;
     Geofence.geometry := {| coords := [(0, 0); (0, 1); (1, 1); (0, 0)]%float |} |}.

(** A 2021 link as the database returns it; the derived columns are still
    to be set. *)
Definition link_2021 (f t : Z) (nid : RoadId) (direction : Z)
    (cm neg pos : float) (g : list Coord) : Row2021.t :=
  {| Row2021.junction_id_from := f;
     Row2021.junction_id_to := t;
     Row2021.netw_id := nid;
     Row2021.simple_traffic_direction := direction;
     Row2021.centimeters := cm;
     Row2021.speed_average_neg := neg;
     Row2021.speed_average_pos := pos;
     Row2021.geom := {| coords := g |};
     Row2021.kilometers := nan;
     Row2021.neg_minutes := nan;
     Row2021.pos_minutes := nan |}.

(** A two-way road of one kilometre between junctions 1 and 2. *)
Definition road_12 : Row2021.t :=
  link_2021 1 2 (IntId 7) 1 100000 15 20 [(0, 0); (1, 0)]%float.
(** A one-way road of two kilometres from junction 2 to junction 3, with
    no positive speed on record. *)
Definition road_23 : Row2021.t :=
  link_2021 2 3 (StrId "b8") 2 200000 nan nan [(1, 0); (1, 2)]%float.
(** A road from junction 3 back to junction 1 whose direction code is 4. *)
Definition road_31_code4 : Row2021.t :=
  link_2021 3 1 (IntId 9) 4 100000 20 20 [(1, 2); (0, 0)]%float.
(** A road whose positive speed is 0. *)
Definition road_speed0 : Row2021.t :=
  link_2021 1 2 (IntId 10) 2 100000 20 0 [(0, 0); (1, 0)]%float.

Definition frame_2021 (l : list Row2021.t) : GeoDataFrame.t Row2021.t :=
  {| GeoDataFrame.rows := l; GeoDataFrame.crs := Some LATLON_CRS |}.

Definition link_2017 (k f t frc rdcond : Z) (oneway : string)
    (meters minutes : float) (g : list Coord) : Row2017.t :=
  {| Row2017.id := k;
     Row2017.f_jnctid := f;
     Row2017.t_jnctid := t;
     Row2017.frc := frc;
     Row2017.backrd := 0;
     Row2017.rdcond := rdcond;
     Row2017.privaterd := 0;
     Row2017.roughrd := 0;
     Row2017.meters := meters;
     Row2017.minutes := minutes;
     Row2017.oneway := oneway;
     Row2017.wkb_geometry := {| coords := g |};
     Row2017.kilometers := nan |}.

(** A two-way road (its [oneway] cell is neither "FT" nor "TF"). *)
Definition street_12 : Row2017.t :=
  link_2017 5 1 2 3 1 "N" 1000 3 [(0, 0); (1, 0)]%float.
(** A two-way road whose id is 0. *)
Definition street_id0 : Row2017.t :=
  link_2017 0 1 2 3 1 "" 1000 3 [(0, 0); (1, 0)]%float.
(** A road in poor condition: [rdcond] is 2. *)
Definition street_poor : Row2017.t :=
  link_2017 6 2 3 3 2 "FT" 1000 3 [(1, 0); (1, 2)]%float.

Definition frame_2017 (l : list Row2017.t) : GeoDataFrame.t Row2017.t :=
  {| GeoDataFrame.rows := l; GeoDataFrame.crs := Some LATLON_CRS |}.

(** A database with two 2021 links and one 2017 link in poor condition. *)
Definition sample_db : Engine :=
  {| network_2021 := λ _, frame_2021 [road_12; road_23];
     multinet_2017 := λ _, frame_2017 [street_poor] |}.

(** A database with no link inside any geofence. *)
Definition empty_db : Engine :=
  {| network_2021 := λ _, frame_2021 [];
     multinet_2017 := λ _, frame_2017 [] |}.

(** The frame [get_tomtom_gdf_2021] makes of the two 2021 links. *)
Definition sample_frame_2021 : GeoDataFrame.t Row2021.t :=
  frame_2021 (map add_columns_2021 [road_12; road_23]).

(** The graph a builder returned, the empty graph standing for an
    exception. *)
Definition graph_of (r : Result MultiDiGraph) : MultiDiGraph :=
  match r with
  | Ok G => G
  | Err _ => empty_graph
  end.

(** ** Further notions and sample data *)

(** The builder returned a graph. *)
Definition is_Ok {A} (r : Result A) : Prop := ∃ a, r = Ok a.

(** The attribute dictionary [d] with [f] applied to its geometry. *)
Definition map_edge_geom (f : LineString → LineString) (d : EdgeData.t)
  : EdgeData.t :=
  {| EdgeData.kilometers := EdgeData.kilometers d;
     EdgeData.minutes := EdgeData.minutes d;
     EdgeData.geom := f (EdgeData.geom d);
     EdgeData.road_id := EdgeData.road_id d |}.

(** The graph [G] with [f] applied to the geometry of every edge. *)
Definition map_graph_geom (f : LineString → LineString) (G : MultiDiGraph)
  : MultiDiGraph :=
  {| graph := graph G;
     nodes := nodes G;
     edges := map_edge_geom f <$> edges G |}.

(** The edge [e] with [f] applied to its geometry. *)
Definition map_edge (f : LineString → LineString) (e : Edge) : Edge :=
  (e.1, map_edge_geom f e.2).

(** The graph a reader returned, seen with the geometries of its edges
    changed by [f] and with [crs] as its coordinate descriptor. *)
Definition with_geometries (f : LineString → LineString) (crs : option CRS)
    (G : MultiDiGraph) : MultiDiGraph :=
  set_graph_attributes crs (map_graph_geom f G).

(** A function on geometries that acts on each coordinate, as a
    reprojection does. *)
Definition pointwise (h : Coord → Coord) (g : LineString) : LineString :=
  {| coords := map h (coords g) |}.

(** A two-way 2021 road that leaves junction 4 and comes back to it. *)
Definition road_loop : Row2021.t :=
  link_2021 4 4 (IntId 11) 1 100000 10 20 [(0, 0); (1, 1); (0, 0)]%float.
(** A one-way 2021 road from junction 3 to junction 1. *)
Definition road_31 : Row2021.t :=
  link_2021 3 1 (IntId 9) 2 100000 20 20 [(1, 2); (0, 0)]%float.
(** A one-way 2017 road from junction 2 to junction 3, and one against the
    digitisation, from junction 1 to junction 3. *)
Definition street_23 : Row2017.t :=
  link_2017 8 2 3 3 1 "FT" 2000 5 [(1, 0); (1, 2)]%float.
Definition street_31 : Row2017.t :=
  link_2017 9 3 1 3 1 "TF" nan nan [(1, 2); (0, 0)]%float.
(** A 2017 road whose geometry has no coordinate. *)
Definition street_no_geometry : Row2017.t :=
  link_2017 12 1 2 3 1 "FT" 1000 3 [].

(** A database with 2017 links of every kind. *)
Definition mixed_db : Engine :=
  {| network_2021 := λ _, {| GeoDataFrame.rows := [road_12; road_23; road_31];
                             GeoDataFrame.crs := None |};
     multinet_2017 := λ _, frame_2017 [street_12; street_poor; street_23; street_31] |}.

(** * Properties *)

Ltac by_evaluation := vm_compute; reflexivity.

(** ** Reachability is what [closure] computes *)

Lemma elem_of_arcs G u v : (u, v) ∈ arcs G ↔ arc G u v.
Proof.
  unfold arcs, arc. rewrite elem_of_map. split.
  - intros ([[u' v'] k] & Heq & Hin). simpl in Heq. inversion Heq; subst.
    exists k. by apply elem_of_dom.
  - intros [k Hk]. exists (u, v, k). split; [done|]. by apply elem_of_dom.
Qed.

Lemma elem_of_successors G R v :
  v ∈ successors G R ↔ ∃ u, u ∈ R ∧ arc G u v.
Proof.
  unfold successors. rewrite elem_of_map. split.
  - intros ([u v'] & -> & Hin). apply elem_of_filter in Hin as [Hu Ha].
    exists u. split; [done|]. by apply elem_of_arcs.
  - intros (u & Hu & Ha). exists (u, v). split; [done|].
    apply elem_of_filter. split; [done|]. by apply elem_of_arcs.
Qed.

Lemma successors_targets G R :
  successors G R ⊆ set_map (D:=gset Z) snd (arcs G).
Proof.
  intros v Hv. apply elem_of_successors in Hv as (u & _ & Ha).
  apply elem_of_map. exists (u, v). split; [done|]. by apply elem_of_arcs.
Qed.

Lemma closure_incl n G R : R ⊆ closure n G R.
Proof.
  revert R. induction n as [|n IH]; intros R; simpl; [done|].
  case_decide; [done|]. etrans; [|apply IH]. set_solver.
Qed.

Lemma closure_sound n G R v :
  v ∈ closure n G R → ∃ u, u ∈ R ∧ path G u v.
Proof.
  revert R. induction n as [|n IH]; intros R; simpl.
  - intros Hv. exists v. split; [done|]. apply rtc_refl.
  - case_decide.
    + intros Hv. exists v. split; [done|]. apply rtc_refl.
    + intros Hv. apply IH in Hv as (w & Hw & Hp).
      apply elem_of_union in Hw as [Hw|Hw].
      * by exists w.
      * apply elem_of_successors in Hw as (u & Hu & Ha).
        exists u. split; [done|]. by eapply rtc_l.
Qed.

Lemma closure_closed n G R :
  size (set_map (D:=gset Z) snd (arcs G) ∖ R) < n →
  successors G (closure n G R) ⊆ closure n G R.
Proof.
  revert R. induction n as [|n IH]; intros R Hsz; [lia|]. simpl.
  case_decide as Hsub; [set_solver|].
  apply IH.
  assert (∃ x, x ∈ successors G R ∧ x ∉ R) as (x & Hx & HxR).
  { destruct (set_choose_or_empty (successors G R ∖ R)) as [[x Hx]|Hemp].
    - exists x. set_solver.
    - exfalso. apply Hsub. set_solver. }
  pose proof (successors_targets G R x Hx) as HxT.
  clear Hsub.
  assert (set_map (D:=gset Z) snd (arcs G) ∖ (R ∪ successors G R)
            ⊂ set_map (D:=gset Z) snd (arcs G) ∖ R) as Hlt.
  { split; [set_solver|]. intros Hc.
    assert (x ∈ set_map (D:=gset Z) snd (arcs G) ∖ (R ∪ successors G R)) as Hx'.
    { apply Hc, elem_of_difference. done. }
    apply elem_of_difference in Hx' as [_ Hx']. apply Hx', elem_of_union. by right. }
  apply subset_size in Hlt. lia.
Qed.

Lemma closed_path G (C : gset Z) u v :
  successors G C ⊆ C → u ∈ C → path G u v → v ∈ C.
Proof.
  intros Hcl Hu Hp. induction Hp as [|x y z Ha _ IH]; [done|].
  apply IH, Hcl, elem_of_successors. by exists x.
Qed.

Lemma elem_of_descendants G u v : v ∈ descendants G u ↔ path G u v.
Proof.
  unfold descendants. split.
  - intros Hv. apply closure_sound in Hv as (w & Hw & Hp).
    apply elem_of_singleton in Hw. by subst.
  - intros Hp. eapply closed_path; [| |exact Hp].
    + apply closure_closed.
      assert (size (set_map (D:=gset Z) snd (arcs G) ∖ {[u]})
                ≤ size (set_map (D:=gset Z) snd (arcs G))); [|lia].
      apply subseteq_size. set_solver.
    + apply closure_incl. set_solver.
Qed.

Lemma elem_of_component_of G u v :
  v ∈ component_of G u ↔ path G u v ∧ path G v u.
Proof.
  unfold component_of. rewrite elem_of_filter, !elem_of_descendants. tauto.
Qed.

(** ** The components and the largest of them *)

Lemma elem_of_components_from G todo seen c :
  c ∈ components_from G todo seen → ∃ u, u ∈ todo ∧ c = component_of G u.
Proof.
  revert seen. induction todo as [|w todo IH]; intros seen; simpl.
  - by intros ?%elem_of_nil.
  - case_decide.
    + intros (u & ? & ?)%IH. exists u. split; [by right|done].
    + intros [->|(u & ? & ?)%IH]%elem_of_cons.
      * exists w. split; [by left|done].
      * exists u. split; [by right|done].
Qed.

Lemma elem_of_strongly_connected_components G c :
  c ∈ strongly_connected_components G →
  ∃ u, u ∈ nodes G ∧ c = component_of G u.
Proof.
  intros (u & Hu & ->)%elem_of_components_from.
  exists u. split; [|done]. by apply elem_of_elements.
Qed.

(** No node is left out: the components cover every node still to do or
    already seen. *)
Lemma components_from_cover G todo seen u :
  u ∈ todo → u ∉ seen →
  ∃ c, c ∈ components_from G todo seen ∧ u ∈ c.
Proof.
  revert seen. induction todo as [|w todo IH]; intros seen Hu Hseen; simpl.
  - by apply elem_of_nil in Hu.
  - apply elem_of_cons in Hu as [->|Hu].
    + rewrite decide_False by done.
      exists (component_of G w). split; [by left|].
      apply elem_of_component_of. split; apply rtc_refl.
    + case_decide.
      * by apply IH.
      * destruct (decide (u ∈ component_of G w)) as [Hin|Hout].
        -- exists (component_of G w). split; [by left|done].
        -- destruct (IH (seen ∪ component_of G w) Hu) as (c & Hc & Huc).
           { intros [?|?]%elem_of_union; done. }
           exists c. split; [by right|done].
Qed.

Lemma foldl_longest_elem (l : list (gset Z)) (c : gset Z) :
  foldl (λ best x, if decide (size best < size x) then x else best) c l
    ∈ c :: l.
Proof.
  revert c. induction l as [|x l IH]; intros c; simpl; [by left|].
  case_decide.
  - right. apply IH.
  - specialize (IH c). apply elem_of_cons in IH as [->|?].
    + by left.
    + right. by right.
Qed.

Lemma foldl_longest_ge (l : list (gset Z)) (c x : gset Z) :
  x ∈ c :: l →
  size x ≤
    size (foldl (λ best x, if decide (size best < size x) then x else best) c l).
Proof.
  revert c x. induction l as [|y l IH]; intros c x; simpl.
  - intros [->|?%elem_of_nil]%elem_of_cons; done.
  - intros [Hx|[Hx|Hx]%elem_of_cons]%elem_of_cons; subst.
    + case_decide.
      * etrans; [|apply (IH y y); by left]. lia.
      * apply IH. by left.
    + case_decide.
      * apply IH. by left.
      * etrans; [|apply (IH c c); by left]. lia.
    + apply IH. by right.
Qed.

Lemma max_key_len_elem l c : max_key_len l = Ok c → c ∈ l.
Proof.
  destruct l as [|c0 l]; simpl; [done|].
  intros [= <-]. apply foldl_longest_elem.
Qed.

Lemma max_key_len_longest l c x :
  max_key_len l = Ok c → x ∈ l → size x ≤ size c.
Proof.
  destruct l as [|c0 l]; simpl; [done|].
  intros [= <-]. apply foldl_longest_ge.
Qed.

(** ** The subgraph on a component *)

Lemma lookup_subgraph G c u v k :
  edges (subgraph G c) !! (u, v, k) =
    if decide (u ∈ c ∧ v ∈ c) then edges G !! (u, v, k) else None.
Proof.
  unfold subgraph. simpl. case_decide as Hc.
  - destruct (edges G !! (u, v, k)) as [d|] eqn:Hd.
    + by apply map_lookup_filter_Some.
    + apply map_lookup_filter_None. left. done.
  - apply map_lookup_filter_None. right. intros d _. exact Hc.
Qed.

Lemma arc_subgraph G c u v :
  arc (subgraph G c) u v ↔ arc G u v ∧ u ∈ c ∧ v ∈ c.
Proof.
  unfold arc. split.
  - intros [k Hk]. rewrite lookup_subgraph in Hk. case_decide as Hc.
    + split; [by exists k|done].
    + by destruct Hk.
  - intros ([k Hk] & Hu & Hv). exists k. rewrite lookup_subgraph.
    by rewrite decide_True.
Qed.

(** A path of [G] between two nodes of a component stays in it. *)
Lemma path_in_component G w u v :
  u ∈ component_of G w → v ∈ component_of G w → path G u v →
  path (subgraph G (component_of G w)) u v.
Proof.
  intros Hu Hv Hp. induction Hp as [x|x y z Ha Hp IH]; [apply rtc_refl|].
  assert (y ∈ component_of G w) as Hy.
  { apply elem_of_component_of in Hu as [Hwx Hxw].
    apply elem_of_component_of in Hv as [Hwz Hzw].
    apply elem_of_component_of. split.
    - unfold path. eapply rtc_r; [exact Hwx|exact Ha].
    - unfold path in *. etrans; [exact Hp|exact Hzw]. }
  unfold path. eapply rtc_l; [|by apply IH].
  apply arc_subgraph. done.
Qed.

Lemma subgraph_component_strongly_connected G w :
  strongly_connected (subgraph G (component_of G w)).
Proof.
  intros u v [_ Hu]%elem_of_intersection [_ Hv]%elem_of_intersection.
  apply path_in_component; [done..|].
  apply elem_of_component_of in Hu as [_ Huw].
  apply elem_of_component_of in Hv as [Hwv _].
  unfold path in *. etrans; done.
Qed.

(** ** Built graphs *)

Lemma well_formed_add_edge G e : well_formed G → well_formed (add_edge G e).
Proof.
  intros Hwf u v k. unfold add_edge. simpl.
  destruct (decide ((edge_from e, edge_to e, edge_key e) = (u, v, k))) as [Heq|Hne].
  - inversion Heq; subst. intros _. set_solver.
  - rewrite lookup_insert_ne by done. intros Hk.
    destruct (Hwf u v k Hk). set_solver.
Qed.

Lemma well_formed_add_edges_from G ebunch :
  well_formed G → well_formed (add_edges_from G ebunch).
Proof.
  unfold add_edges_from. revert G.
  induction ebunch as [|e ebunch IH]; intros G Hwf; simpl; [done|].
  by apply IH, well_formed_add_edge.
Qed.

Lemma well_formed_empty_graph : well_formed empty_graph.
Proof. intros u v k. simpl. rewrite lookup_empty. by intros []. Qed.

Lemma well_formed_built_graph_2021 gdf : well_formed (built_graph_2021 gdf).
Proof.
  unfold built_graph_2021.
  do 4 apply well_formed_add_edges_from. apply well_formed_empty_graph.
Qed.

Lemma well_formed_built_graph_2017 gdf : well_formed (built_graph_2017 gdf).
Proof.
  unfold built_graph_2017.
  do 4 apply well_formed_add_edges_from. apply well_formed_empty_graph.
Qed.

Lemma path_ends_in_node G u v :
  well_formed G → u ∈ nodes G → path G u v → v ∈ nodes G.
Proof.
  intros Hwf Hu Hp. induction Hp as [|x y z [k Hk] _ IH]; [done|].
  apply IH. by destruct (Hwf x y k Hk).
Qed.

Lemma component_of_nodes G w :
  well_formed G → w ∈ nodes G → component_of G w ⊆ nodes G.
Proof.
  intros Hwf Hw v [Hwv _]%elem_of_component_of.
  by eapply path_ends_in_node.
Qed.

Lemma largest_component_inv G G' :
  largest_component G = Ok G' →
  ∃ c, c ∈ strongly_connected_components G ∧
       (∀ x, x ∈ strongly_connected_components G → size x ≤ size c) ∧
       G' = subgraph G c.
Proof.
  unfold largest_component. simpl.
  destruct (max_key_len (strongly_connected_components G)) as [c|e] eqn:Hmax;
    simpl; [|done].
  intros [= <-]. exists c. split; [by apply max_key_len_elem|].
  split; [|done]. intros x Hx. by eapply max_key_len_longest.
Qed.

(** What the reduction step returns on a graph whose edges run between
    its nodes. *)
Lemma largest_component_spec G G' :
  well_formed G → largest_component G = Ok G' →
  nodes G' ∈ strongly_connected_components G ∧
  (∀ x, x ∈ strongly_connected_components G → size x ≤ size (nodes G')) ∧
  strongly_connected G' ∧
  graph G' = graph G ∧
  ∀ u v k,
    edges G' !! (u, v, k) =
      if decide (u ∈ nodes G' ∧ v ∈ nodes G') then edges G !! (u, v, k)
      else None.
Proof.
  intros Hwf (c & Hc & Hmax & ->)%largest_component_inv.
  destruct (elem_of_strongly_connected_components G c Hc) as (w & Hw & ->).
  assert (nodes (subgraph G (component_of G w)) = component_of G w) as Hn.
  { simpl. pose proof (component_of_nodes G w Hwf Hw). set_solver. }
  rewrite Hn. repeat split; try done.
  - apply subgraph_component_strongly_connected.
  - intros u v k. apply lookup_subgraph.
Qed.

(** ** C5 *)

(** C5. Whenever a builder returns a graph, every node of it reaches every
    other node of it by a directed path of that graph; its node set is one
    of the strongly connected components of the graph that was built, none
    of which has more nodes; and its edges are the built edges, with their
    attributes, whose two endpoints are both among these nodes. *)
Theorem returned_graph_strongly_connected :
  (∀ gdf G,
     tomtom_gdf_to_nx_graph_2021 gdf = Ok G →
     strongly_connected G ∧
     nodes G ∈ strongly_connected_components (built_graph_2021 gdf) ∧
     (∀ x, x ∈ strongly_connected_components (built_graph_2021 gdf) →
           size x ≤ size (nodes G)) ∧
     ∀ u v k,
       edges G !! (u, v, k) =
         if decide (u ∈ nodes G ∧ v ∈ nodes G)
         then edges (built_graph_2021 gdf) !! (u, v, k) else None) ∧
  (∀ gdf G,
     tomtom_gdf_to_nx_graph_2017 gdf = Ok G →
     strongly_connected G ∧
     nodes G ∈ strongly_connected_components (built_graph_2017 gdf) ∧
     (∀ x, x ∈ strongly_connected_components (built_graph_2017 gdf) →
           size x ≤ size (nodes G)) ∧
     ∀ u v k,
       edges G !! (u, v, k) =
         if decide (u ∈ nodes G ∧ v ∈ nodes G)
         then edges (built_graph_2017 gdf) !! (u, v, k) else None).
Proof.
  split; intros gdf G.
  - unfold tomtom_gdf_to_nx_graph_2021.
    destruct (largest_component (built_graph_2021 gdf)) as [G'|e] eqn:HG';
      simpl; [|done].
    intros [= <-].
    destruct (largest_component_spec _ _ (well_formed_built_graph_2021 gdf) HG')
      as (Hc & Hmax & Hsc & _ & He).
    done.
  - unfold tomtom_gdf_to_nx_graph_2017.
    destruct (traverse end_points_2017 (GeoDataFrame.rows gdf)); simpl; [|done].
    destruct (largest_component (built_graph_2017 gdf)) as [G'|e] eqn:HG';
      simpl; [|done].
    intros [= <-].
    destruct (largest_component_spec _ _ (well_formed_built_graph_2017 gdf) HG')
      as (Hc & Hmax & Hsc & _ & He).
    done.
Qed.

Lemma returned_graph_strongly_connected_sample :
  let G := graph_of (tomtom_gdf_to_nx_graph_2021 sample_frame_2021) in
  tomtom_gdf_to_nx_graph_2021 sample_frame_2021 = Ok G ∧
  strongly_connected G ∧
  nodes G ∈ strongly_connected_components (built_graph_2021 sample_frame_2021) ∧
  (∀ x, x ∈ strongly_connected_components (built_graph_2021 sample_frame_2021) →
        size x ≤ size (nodes G)) ∧
  ∀ u v k,
    edges G !! (u, v, k) =
      if decide (u ∈ nodes G ∧ v ∈ nodes G)
      then edges (built_graph_2021 sample_frame_2021) !! (u, v, k) else None.
Proof.
  intros G.
  assert (tomtom_gdf_to_nx_graph_2021 sample_frame_2021 = Ok G) as HG
    by by_evaluation.
  split; [exact HG|].
  exact (proj1 returned_graph_strongly_connected sample_frame_2021 G HG).
Defined.

(** ** C1 *)

Lemma add_edges_from_no_edges G ebunch :
  edges (add_edges_from G ebunch) = ∅ → edges G = ∅ ∧ ebunch = [].
Proof.
  unfold add_edges_from. revert G.
  induction ebunch as [|e ebunch IH]; intros G; simpl; [done|].
  intros [Hins _]%IH. simpl in Hins. by apply insert_non_empty in Hins.
Qed.

Lemma built_graph_2021_no_edges gdf :
  edges (built_graph_2021 gdf) = ∅ → built_graph_2021 gdf = empty_graph.
Proof.
  unfold built_graph_2021.
  intros [[[[_ H1]%add_edges_from_no_edges H2]%add_edges_from_no_edges
            H3]%add_edges_from_no_edges H4]%add_edges_from_no_edges.
  by rewrite H1, H2, H3, H4.
Qed.

Lemma built_graph_2017_no_edges gdf :
  edges (built_graph_2017 gdf) = ∅ → built_graph_2017 gdf = empty_graph.
Proof.
  unfold built_graph_2017.
  intros [[[[_ H1]%add_edges_from_no_edges H2]%add_edges_from_no_edges
            H3]%add_edges_from_no_edges H4]%add_edges_from_no_edges.
  by rewrite H1, H2, H3, H4.
Qed.

Lemma largest_component_empty_graph :
  largest_component empty_graph = Err (ValueError max_empty_msg).
Proof. reflexivity. Qed.

Lemma traverse_end_points_2017_error l e :
  traverse end_points_2017 l = Err e → e = IndexError index_msg.
Proof.
  induction l as [|r l IH]; simpl; [done|].
  unfold end_points_2017 at 1.
  destruct (head (coords (Row2017.wkb_geometry r))),
           (last (coords (Row2017.wkb_geometry r))); simpl;
    try by intros [= <-].
  destruct (traverse end_points_2017 l); simpl; [done|].
  intros [= <-]. by apply IH.
Qed.

(** C1 (what the code does). The guard of lines 239 and 367 tests a
    generator object, which is always true, so the reduction step never
    raises the not-routable [MapException]. On a built graph without edges
    there is no node either, no component is yielded, and it is [max] that
    raises: a [ValueError]. (The 2017 builder may have raised an
    [IndexError] before, on a row whose geometry is empty.) *)
Theorem no_edges_raises_ValueError :
  (∀ G, largest_component G ≠ Err (MapException not_routable_msg)) ∧
  (∀ gdf,
     edges (built_graph_2021 gdf) = ∅ →
     tomtom_gdf_to_nx_graph_2021 gdf = Err (ValueError max_empty_msg)) ∧
  (∀ gdf,
     edges (built_graph_2017 gdf) = ∅ →
     tomtom_gdf_to_nx_graph_2017 gdf = Err (ValueError max_empty_msg) ∨
     tomtom_gdf_to_nx_graph_2017 gdf = Err (IndexError index_msg)).
Proof.
  split; [|split].
  - intros G. unfold largest_component. simpl.
    destruct (strongly_connected_components G); simpl; done.
  - intros gdf Hno. unfold tomtom_gdf_to_nx_graph_2021.
    by rewrite (built_graph_2021_no_edges gdf Hno).
  - intros gdf Hno. unfold tomtom_gdf_to_nx_graph_2017.
    rewrite (built_graph_2017_no_edges gdf Hno).
    destruct (traverse end_points_2017 (GeoDataFrame.rows gdf)) as [ends|e] eqn:Ht;
      simpl; [by left|].
    right. by rewrite (traverse_end_points_2017_error _ _ Ht).
Qed.

(** A 2021 frame whose only link has direction code 4, and the 2017 frame
    that the filter of [get_tomtom_gdf_2017] leaves of a link in poor
    condition: both builders raise [ValueError]. *)
Lemma no_edges_raises_ValueError_sample :
  tomtom_gdf_to_nx_graph_2021 (frame_2021 [road_31_code4])
    = Err (ValueError max_empty_msg) ∧
  (tomtom_gdf_to_nx_graph_2017 (frame_2017 [])
     = Err (ValueError max_empty_msg) ∨
   tomtom_gdf_to_nx_graph_2017 (frame_2017 [])
     = Err (IndexError index_msg)) ∧
  snd (@read_tomtom_nxmap_from_sql web_mercator sample_db fence_latlon
         (PyStr "2017") true [])
    = Err (ValueError max_empty_msg).
Proof.
  split; [|split].
  - apply (proj1 (proj2 no_edges_raises_ValueError)). by_evaluation.
  - apply (proj2 (proj2 no_edges_raises_ValueError)). by_evaluation.
  - by_evaluation.
Defined.

(** ** Expansion of one record *)

Lemma twoway_code_2021 (d : Z) : d ∈ [1; 9]%Z ↔ d = 1%Z ∨ d = 9%Z.
Proof.
  rewrite !elem_of_cons, elem_of_nil. tauto.
Qed.

(** The edges that come from a 2021 frame of one row, by its direction
    code. *)
Lemma expand_2021_one r crs :
  expand_2021 {| GeoDataFrame.rows := [r]; GeoDataFrame.crs := crs |} =
    if decide (Row2021.simple_traffic_direction r ∈ [1; 9]%Z)
    then [edge_tf_2021 r; edge_ft_2021 r]
    else if decide (Row2021.simple_traffic_direction r = 2%Z)
    then [edge_ft_2021 r]
    else if decide (Row2021.simple_traffic_direction r = 3%Z)
    then [edge_tf_2021 r]
    else [].
Proof.
  unfold expand_2021, twoway_edges_tf_2021, twoway_edges_ft_2021,
    oneway_edges_ft_2021, oneway_edges_tf_2021, twoway_2021, oneway_ft_2021,
    oneway_tf_2021. simpl.
  rewrite !filter_cons, !filter_nil.
  destruct (decide (Row2021.simple_traffic_direction r ∈ [1; 9]%Z)) as [Hd|Hd].
  - apply twoway_code_2021 in Hd.
    rewrite !decide_False by lia. done.
  - destruct (decide (Row2021.simple_traffic_direction r = 2%Z)) as [H2|H2].
    + rewrite decide_False by lia. done.
    + destruct (decide (Row2021.simple_traffic_direction r = 3%Z)); done.
Qed.

(** The edges that come from a 2017 frame of one row, by its [oneway]
    cell. *)
Lemma expand_2017_one r crs :
  expand_2017 {| GeoDataFrame.rows := [r]; GeoDataFrame.crs := crs |} =
    if decide (Row2017.oneway r = "FT") then [edge_ft_2017 r]
    else if decide (Row2017.oneway r = "TF") then [edge_tf_2017 r]
    else [edge_tf_2017 r; edge_ft_2017 r].
Proof.
  unfold expand_2017, twoway_edges_tf_2017, twoway_edges_ft_2017,
    oneway_edges_ft_2017, oneway_edges_tf_2017, twoway_2017, oneway_ft_2017,
    oneway_tf_2017. simpl.
  rewrite !filter_cons, !filter_nil.
  repeat case_decide; try done; try tauto; congruence.
Qed.

Lemma built_graph_2021_expand gdf :
  built_graph_2021 gdf = add_edges_from empty_graph (expand_2021 gdf).
Proof.
  unfold built_graph_2021, expand_2021, add_edges_from.
  by rewrite !foldl_app.
Qed.

Lemma built_graph_2017_expand gdf :
  built_graph_2017 gdf = add_edges_from empty_graph (expand_2017 gdf).
Proof.
  unfold built_graph_2017, expand_2017, add_edges_from.
  by rewrite !foldl_app.
Qed.

(** ** C2 *)

(** C2 (as amended). A record whose direction is Both expands to exactly
    two edges, the backward one first, whose (from, to) pairs are each
    other's reverse. In the 2021 variant both carry the road id as their
    key. In the 2017 variant the forward key is the road id and the backward
    key its negation, and the two differ exactly when the id is not 0. *)
Theorem both_expands_to_two_edges :
  (∀ r crs,
     Row2021.simple_traffic_direction r ∈ [1; 9]%Z →
     ∃ b f,
       expand_2021 {| GeoDataFrame.rows := [r]; GeoDataFrame.crs := crs |} = [b; f] ∧
       edge_from f = Row2021.junction_id_from r ∧
       edge_to f = Row2021.junction_id_to r ∧
       edge_from b = edge_to f ∧ edge_to b = edge_from f ∧
       edge_key f = Row2021.netw_id r ∧ edge_key b = Row2021.netw_id r) ∧
  (∀ r crs,
     Row2017.oneway r ≠ "FT" → Row2017.oneway r ≠ "TF" →
     ∃ b f,
       expand_2017 {| GeoDataFrame.rows := [r]; GeoDataFrame.crs := crs |} = [b; f] ∧
       edge_from f = Row2017.f_jnctid r ∧
       edge_to f = Row2017.t_jnctid r ∧
       edge_from b = edge_to f ∧ edge_to b = edge_from f ∧
       edge_key f = IntId (Row2017.id r) ∧
       edge_key b = IntId (- Row2017.id r) ∧
       (edge_key b ≠ edge_key f ↔ Row2017.id r ≠ 0%Z)).
Proof.
  split.
  - intros r crs Hd. exists (edge_tf_2021 r), (edge_ft_2021 r).
    rewrite expand_2021_one, decide_True by done. done.
  - intros r crs Hft Htf. exists (edge_tf_2017 r), (edge_ft_2017 r).
    rewrite expand_2017_one, !decide_False by done.
    repeat split; try done.
    + intros Hne H0. apply Hne. unfold edge_key. simpl. by rewrite H0.
    + intros Hne. unfold edge_key. simpl. intros [= Heq]. lia.
Qed.

Lemma both_expands_to_two_edges_sample :
  (∃ b f,
     expand_2021 (frame_2021 [road_12]) = [b; f] ∧
     edge_from f = 1%Z ∧ edge_to f = 2%Z ∧
     edge_from b = edge_to f ∧ edge_to b = edge_from f ∧
     edge_key f = IntId 7 ∧ edge_key b = IntId 7) ∧
  (∃ b f,
     expand_2017 (frame_2017 [street_12]) = [b; f] ∧
     edge_from f = 1%Z ∧ edge_to f = 2%Z ∧
     edge_from b = edge_to f ∧ edge_to b = edge_from f ∧
     edge_key f = IntId 5 ∧ edge_key b = IntId (-5) ∧
     (edge_key b ≠ edge_key f ↔ 5%Z ≠ 0%Z)).
Proof.
  split.
  - apply (proj1 both_expands_to_two_edges road_12 (Some LATLON_CRS)).
    compute_done.
  - apply (proj2 both_expands_to_two_edges street_12 (Some LATLON_CRS));
      compute_done.
Defined.

(** C2 (as stated) fails in both variants: the two edges of the two-way
    2021 road [road_12] have the same key, and so have the two edges of the
    two-way 2017 road [street_id0], whose id is 0. *)
Lemma both_keys_need_not_differ :
  ¬ (∀ r : Row2021.t,
       Row2021.simple_traffic_direction r ∈ [1; 9]%Z →
       ∃ b f, expand_2021 (frame_2021 [r]) = [b; f] ∧
              edge_from b = edge_to f ∧ edge_to b = edge_from f ∧
              edge_key b ≠ edge_key f) ∧
  ¬ (∀ r : Row2017.t,
       Row2017.oneway r ≠ "FT" → Row2017.oneway r ≠ "TF" →
       ∃ b f, expand_2017 (frame_2017 [r]) = [b; f] ∧
              edge_from b = edge_to f ∧ edge_to b = edge_from f ∧
              edge_key b ≠ edge_key f).
Proof.
  split.
  - intros Hall.
    destruct (Hall road_12) as (b & f & Heq & _ & _ & Hk); [compute_done|].
    vm_compute in Heq. inversion Heq; subst. by apply Hk.
  - intros Hall.
    destruct (Hall street_id0) as (b & f & Heq & _ & _ & Hk);
      [compute_done..|].
    vm_compute in Heq. inversion Heq; subst. by apply Hk.
Qed.

(** ** C7 *)

Lemma coords_reversed_LineString g :
  coords (reversed_LineString g) = rev (coords g).
Proof. unfold reversed_LineString, reverse. simpl. symmetry. apply rev_alt. Qed.

(** C7. The geometry of every synthesized reverse edge, the edge of a
    Backward record and the backward edge of a Both record, in either
    variant, has the coordinates of the record's geometry in reverse order:
    its coordinate at position [i] is the record's coordinate at position
    [n - 1 - i], where [n] is the number of coordinates. *)
Theorem reverse_edges_reverse_geometry :
  (∀ r, coords (EdgeData.geom (edge_data (edge_tf_2021 r)))
          = rev (coords (Row2021.geom r))) ∧
  (∀ r, coords (EdgeData.geom (edge_data (edge_tf_2017 r)))
          = rev (coords (Row2017.wkb_geometry r))) ∧
  (∀ gdf,
     map (λ e, coords (EdgeData.geom (edge_data e)))
         (twoway_edges_tf_2021 gdf ++ oneway_edges_tf_2021 gdf)
       = map (λ r, rev (coords (Row2021.geom r)))
             (twoway_2021 gdf ++ oneway_tf_2021 gdf)) ∧
  (∀ gdf,
     map (λ e, coords (EdgeData.geom (edge_data e)))
         (twoway_edges_tf_2017 gdf ++ oneway_edges_tf_2017 gdf)
       = map (λ r, rev (coords (Row2017.wkb_geometry r)))
             (twoway_2017 gdf ++ oneway_tf_2017 gdf)) ∧
  (∀ g (i : nat),
     coords (reversed_LineString g) !! i =
       if decide (i < length (coords g))
       then coords g !! (length (coords g) - S i) else None).
Proof.
  assert (∀ r, coords (EdgeData.geom (edge_data (edge_tf_2021 r)))
                 = rev (coords (Row2021.geom r))) as H21.
  { intros r. apply coords_reversed_LineString. }
  assert (∀ r, coords (EdgeData.geom (edge_data (edge_tf_2017 r)))
                 = rev (coords (Row2017.wkb_geometry r))) as H17.
  { intros r. apply coords_reversed_LineString. }
  repeat split; try done.
  - intros gdf.
    unfold twoway_edges_tf_2021, oneway_edges_tf_2021.
    rewrite <- map_app, map_map. apply map_ext. intros r. apply H21.
  - intros gdf.
    unfold twoway_edges_tf_2017, oneway_edges_tf_2017.
    rewrite <- map_app, map_map. apply map_ext. intros r. apply H17.
  - intros g i. unfold reversed_LineString. simpl. case_decide as Hi.
    + by apply reverse_lookup.
    + apply lookup_ge_None. rewrite length_reverse. lia.
Qed.

(** ** C6 *)

Lemma filter_drop_middle {A} (P : A → Prop) `{∀ x, Decision (P x)}
    (l1 l2 : list A) (x : A) :
  ¬ P x → filter P (l1 ++ x :: l2) = filter P (l1 ++ l2).
Proof.
  intros Hx. rewrite !filter_app. f_equal. by apply filter_cons_False.
Qed.

(** A 2021 row whose direction code is none of 1, 2, 3 and 9 passes none of
    the three masks: the edges are those of the frame without it. *)
Lemma expand_2021_unrecognised rows1 r rows2 crs :
  Row2021.simple_traffic_direction r ∉ [1; 2; 3; 9]%Z →
  expand_2021 {| GeoDataFrame.rows := rows1 ++ r :: rows2; GeoDataFrame.crs := crs |}
    = expand_2021 {| GeoDataFrame.rows := rows1 ++ rows2; GeoDataFrame.crs := crs |}.
Proof.
  intros Hd.
  assert (Row2021.simple_traffic_direction r ≠ 2%Z) as H2 by set_solver.
  assert (Row2021.simple_traffic_direction r ≠ 3%Z) as H3 by set_solver.
  assert (Row2021.simple_traffic_direction r ∉ [1; 9]%Z) as H19 by set_solver.
  unfold expand_2021, twoway_edges_tf_2021, twoway_edges_ft_2021,
    oneway_edges_ft_2021, oneway_edges_tf_2021, twoway_2021, oneway_ft_2021,
    oneway_tf_2021. simpl.
  by rewrite !filter_drop_middle by done.
Qed.

(** C6 (as amended). In the 2017 variant every [oneway] cell other than
    "FT" and "TF" makes the record a Both record. In the 2021 variant the
    codes 1 and 9 are Both, 2 is Forward and 3 is Backward; a record with
    any other code gives no edge and no exception: the builder returns what
    it returns for the frame without that record. *)
Theorem direction_classification :
  (∀ r crs,
     Row2017.oneway r ≠ "FT" → Row2017.oneway r ≠ "TF" →
     expand_2017 {| GeoDataFrame.rows := [r]; GeoDataFrame.crs := crs |}
       = [edge_tf_2017 r; edge_ft_2017 r]) ∧
  (∀ r crs,
     Row2021.simple_traffic_direction r ∈ [1; 9]%Z →
     expand_2021 {| GeoDataFrame.rows := [r]; GeoDataFrame.crs := crs |}
       = [edge_tf_2021 r; edge_ft_2021 r]) ∧
  (∀ r crs,
     Row2021.simple_traffic_direction r = 2%Z →
     expand_2021 {| GeoDataFrame.rows := [r]; GeoDataFrame.crs := crs |}
       = [edge_ft_2021 r]) ∧
  (∀ r crs,
     Row2021.simple_traffic_direction r = 3%Z →
     expand_2021 {| GeoDataFrame.rows := [r]; GeoDataFrame.crs := crs |}
       = [edge_tf_2021 r]) ∧
  (∀ r crs,
     Row2021.simple_traffic_direction r ∉ [1; 2; 3; 9]%Z →
     expand_2021 {| GeoDataFrame.rows := [r]; GeoDataFrame.crs := crs |} = []) ∧
  (∀ rows1 r rows2 crs,
     Row2021.simple_traffic_direction r ∉ [1; 2; 3; 9]%Z →
     tomtom_gdf_to_nx_graph_2021
       {| GeoDataFrame.rows := rows1 ++ r :: rows2; GeoDataFrame.crs := crs |}
     = tomtom_gdf_to_nx_graph_2021
       {| GeoDataFrame.rows := rows1 ++ rows2; GeoDataFrame.crs := crs |}).
Proof.
  repeat split.
  - intros r crs Hft Htf. by rewrite expand_2017_one, !decide_False.
  - intros r crs Hd. by rewrite expand_2021_one, decide_True.
  - intros r crs Hd. rewrite expand_2021_one, Hd.
    rewrite decide_False by (rewrite twoway_code_2021; lia).
    by rewrite decide_True.
  - intros r crs Hd. rewrite expand_2021_one, Hd.
    rewrite decide_False by (rewrite twoway_code_2021; lia).
    rewrite decide_False by lia. by rewrite decide_True.
  - intros r crs Hd.
    apply (expand_2021_unrecognised [] r [] crs Hd).
  - intros rows1 r rows2 crs Hd.
    unfold tomtom_gdf_to_nx_graph_2021. simpl.
    by rewrite !built_graph_2021_expand, (expand_2021_unrecognised _ _ _ _ Hd).
Qed.

Lemma direction_classification_sample :
  expand_2017 (frame_2017 [street_12])
    = [edge_tf_2017 street_12; edge_ft_2017 street_12] ∧
  expand_2021 (frame_2021 [road_12])
    = [edge_tf_2021 road_12; edge_ft_2021 road_12] ∧
  expand_2021 (frame_2021 [road_23]) = [edge_ft_2021 road_23] ∧
  expand_2021 (frame_2021 [link_2021 2 1 (IntId 7) 3 100000 15 20 []])
    = [edge_tf_2021 (link_2021 2 1 (IntId 7) 3 100000 15 20 [])] ∧
  expand_2021 (frame_2021 [road_31_code4]) = [] ∧
  tomtom_gdf_to_nx_graph_2021
    (frame_2021 ([add_columns_2021 road_12; add_columns_2021 road_23]
                   ++ road_31_code4 :: []))
  = tomtom_gdf_to_nx_graph_2021
    (frame_2021 ([add_columns_2021 road_12; add_columns_2021 road_23] ++ [])).
Proof.
  pose proof direction_classification as (H17 & H19 & H2 & H3 & H4 & Hdrop).
  split; [apply H17; compute_done|].
  split; [apply H19; compute_done|].
  split; [apply H2; compute_done|].
  split; [apply H3; compute_done|].
  split; [apply H4; compute_done|].
  apply Hdrop; compute_done.
Defined.

(** C6 (as stated) fails in the 2021 variant: a link whose direction code
    is 4 raises nothing. It gives no edge, and the builder returns the graph
    of the other links, although the link would have closed the circuit
    1, 2, 3 had it been given a direction. *)
Lemma unrecognised_code_is_dropped :
  ¬ (∀ gdf r,
       r ∈ GeoDataFrame.rows gdf →
       Row2021.simple_traffic_direction r ∉ [1; 2; 3; 9]%Z →
       ∃ e, tomtom_gdf_to_nx_graph_2021 gdf = Err e) ∧
  expand_2021 (frame_2021 [road_31_code4]) = [] ∧
  elements
    (nodes (graph_of (tomtom_gdf_to_nx_graph_2021
       (frame_2021 (map add_columns_2021 [road_12; road_23; road_31_code4])))))
    = [2%Z; 1%Z].
Proof.
  split; [|split; by_evaluation].
  intros Hall.
  destruct (Hall (frame_2021 (map add_columns_2021 [road_12; road_23; road_31_code4]))
                 (add_columns_2021 road_31_code4)) as [e He].
  - simpl. set_solver.
  - compute_done.
  - vm_compute in He. discriminate He.
Qed.

(** ** C3 *)

Lemma filter_usable_add_kilometers l :
  filter usable_2017 (map add_kilometers_2017 l)
    = map add_kilometers_2017 (filter usable_2017 l).
Proof.
  induction l as [|r l IH]; [done|]. simpl.
  rewrite !filter_cons, IH.
  destruct (decide (usable_2017 r)) as [Hr|Hr].
  - by rewrite decide_True by exact Hr.
  - by rewrite decide_False by exact Hr.
Qed.

Section Normalisation.
Context `{Collaborators}.

(** C3 (as amended). Both [get_tomtom_gdf] functions raise the
    [MapException] "road network has no links" when the query returns no
    row. When the 2017 query returns rows and the filter on [rdcond] and
    [frc] keeps none of them, [get_tomtom_gdf_2017] raises nothing: it
    returns the frame without rows. *)
Theorem empty_input_raises_MapException :
  (∀ con geofence xy log,
     GeoDataFrame.rows (network_2021 con geofence) = [] →
     get_tomtom_gdf_2021 con geofence xy log
       = (log ++ [select_network_2021 geofence],
          Err (MapException no_links_msg))) ∧
  (∀ con geofence xy log,
     GeoDataFrame.rows (multinet_2017 con geofence) = [] →
     get_tomtom_gdf_2017 con geofence xy log
       = (log ++ [select_multinet_2017 geofence],
          Err (MapException no_links_msg))) ∧
  (∀ con geofence xy log,
     GeoDataFrame.rows (multinet_2017 con geofence) ≠ [] →
     filter usable_2017 (GeoDataFrame.rows (multinet_2017 con geofence)) = [] →
     ∃ crs,
       get_tomtom_gdf_2017 con geofence xy log
         = (log ++ [select_multinet_2017 geofence],
            Ok {| GeoDataFrame.rows := []; GeoDataFrame.crs := Some crs |})).
Proof.
  split; [|split].
  - intros con geofence xy log Hempty.
    unfold get_tomtom_gdf_2021, bind, from_postgis_2021, GeoDataFrame.empty.
    by rewrite Hempty.
  - intros con geofence xy log Hempty.
    unfold get_tomtom_gdf_2017, bind, from_postgis_2017, GeoDataFrame.empty.
    by rewrite Hempty.
  - intros con geofence xy log Hrows Hnone.
    unfold get_tomtom_gdf_2017, bind, from_postgis_2017, GeoDataFrame.empty.
    destruct (multinet_2017 con geofence) as [rows crs]. simpl in *.
    destruct rows as [|r rows]; [done|].
    assert (GeoDataFrame.rows (default_crs
              {| GeoDataFrame.rows := r :: rows; GeoDataFrame.crs := crs |})
            = r :: rows) as Hd by (by destruct crs).
    rewrite Hd, filter_usable_add_kilometers, Hnone. simpl.
    destruct xy.
    + unfold lift, to_crs. simpl. destruct crs as [c|]; simpl; by eexists.
    + unfold ret. destruct crs as [c|]; simpl; by eexists.
Qed.

End Normalisation.

Lemma empty_input_raises_MapException_sample :
  @get_tomtom_gdf_2021 web_mercator empty_db fence_latlon true []
    = ([] ++ [select_network_2021 fence_latlon],
       Err (MapException no_links_msg)) ∧
  @get_tomtom_gdf_2017 web_mercator empty_db fence_latlon true []
    = ([] ++ [select_multinet_2017 fence_latlon],
       Err (MapException no_links_msg)) ∧
  ∃ crs,
    @get_tomtom_gdf_2017 web_mercator sample_db fence_latlon true []
      = ([] ++ [select_multinet_2017 fence_latlon],
         Ok {| GeoDataFrame.rows := []; GeoDataFrame.crs := Some crs |}).
Proof.
  pose proof (@empty_input_raises_MapException web_mercator) as (H21 & H17 & Hf).
  split; [apply H21; by_evaluation|].
  split; [apply H17; by_evaluation|].
  apply Hf; [compute_done | by_evaluation].
Defined.

(** C3 (as stated) fails: the only 2017 link of [sample_db] has [rdcond]
    2, the filter keeps nothing, and [get_tomtom_gdf_2017] returns the
    empty frame instead of raising. *)
Lemma filtered_empty_is_returned :
  ¬ (∀ con geofence xy log,
       filter usable_2017 (GeoDataFrame.rows (multinet_2017 con geofence)) = [] →
       snd (@get_tomtom_gdf_2017 web_mercator con geofence xy log)
         = Err (MapException no_links_msg)) ∧
  snd (@get_tomtom_gdf_2017 web_mercator sample_db fence_latlon true [])
    = Ok {| GeoDataFrame.rows := []; GeoDataFrame.crs := Some (EPSG 3857) |}.
Proof.
  split; [|by_evaluation].
  intros Hall.
  specialize (Hall sample_db fence_latlon true []).
  vm_compute in Hall. by discriminate Hall.
Qed.

(** ** C4 *)

Lemma fillna_missing d x : PrimFloat.is_nan x = true → fillna d x = d.
Proof. unfold fillna. by intros ->. Qed.

Lemma fillna_present d x : PrimFloat.is_nan x = false → fillna d x = x.
Proof. unfold fillna. by intros ->. Qed.

Section Speeds.
Context `{Collaborators}.

(** C4 (as amended). In the 2021 variant a missing speed is replaced with
    20 before the minutes are derived, so that the minutes of a record whose
    speed is missing are [(kilometers / 20) * 60], in either direction. A
    speed that is present is kept as it is, 0 included, and the minutes are
    [(kilometers / speed) * 60]. The frame that [get_tomtom_gdf_2021]
    returns carries these minutes. *)
Theorem missing_speed_defaults_to_20 :
  (∀ r,
     PrimFloat.is_nan (Row2021.speed_average_pos r) = true →
     Row2021.speed_average_pos (add_columns_2021 r) = 20%float ∧
     Row2021.pos_minutes (add_columns_2021 r)
       = ((Row2021.kilometers (add_columns_2021 r) / 20) * 60)%float) ∧
  (∀ r,
     PrimFloat.is_nan (Row2021.speed_average_neg r) = true →
     Row2021.speed_average_neg (add_columns_2021 r) = 20%float ∧
     Row2021.neg_minutes (add_columns_2021 r)
       = ((Row2021.kilometers (add_columns_2021 r) / 20) * 60)%float) ∧
  (∀ r,
     PrimFloat.is_nan (Row2021.speed_average_pos r) = false →
     Row2021.speed_average_pos (add_columns_2021 r) = Row2021.speed_average_pos r ∧
     Row2021.pos_minutes (add_columns_2021 r)
       = ((Row2021.kilometers (add_columns_2021 r) / Row2021.speed_average_pos r)
          * 60)%float) ∧
  (∀ r,
     PrimFloat.is_nan (Row2021.speed_average_neg r) = false →
     Row2021.speed_average_neg (add_columns_2021 r) = Row2021.speed_average_neg r ∧
     Row2021.neg_minutes (add_columns_2021 r)
       = ((Row2021.kilometers (add_columns_2021 r) / Row2021.speed_average_neg r)
          * 60)%float) ∧
  (∀ r, Row2021.kilometers (add_columns_2021 r)
          = (Row2021.centimeters r * 0.00001)%float) ∧
  (∀ con geofence xy log,
     GeoDataFrame.rows (network_2021 con geofence) ≠ [] →
     ∃ gdf,
       get_tomtom_gdf_2021 con geofence xy log
         = (log ++ [select_network_2021 geofence], Ok gdf) ∧
       map Row2021.pos_minutes (GeoDataFrame.rows gdf)
         = map (λ r, Row2021.pos_minutes (add_columns_2021 r))
               (GeoDataFrame.rows (network_2021 con geofence)) ∧
       map Row2021.neg_minutes (GeoDataFrame.rows gdf)
         = map (λ r, Row2021.neg_minutes (add_columns_2021 r))
               (GeoDataFrame.rows (network_2021 con geofence))).
Proof.
  split; [|split; [|split; [|split; [|split]]]].
  - intros r Hnan. simpl. by rewrite (fillna_missing _ _ Hnan).
  - intros r Hnan. simpl. by rewrite (fillna_missing _ _ Hnan).
  - intros r Hnan. simpl. by rewrite (fillna_present _ _ Hnan).
  - intros r Hnan. simpl. by rewrite (fillna_present _ _ Hnan).
  - done.
  - intros con geofence xy log Hrows.
    unfold get_tomtom_gdf_2021, bind, from_postgis_2021, GeoDataFrame.empty.
    destruct (network_2021 con geofence) as [rows crs]. simpl in *.
    destruct rows as [|r rows]; [done|].
    assert (GeoDataFrame.rows (default_crs
              {| GeoDataFrame.rows := r :: rows; GeoDataFrame.crs := crs |})
            = r :: rows) as Hd by (by destruct crs).
    rewrite Hd.
    destruct xy.
    + unfold lift, to_crs.
      assert (is_Some (GeoDataFrame.crs (default_crs
                {| GeoDataFrame.rows := r :: rows; GeoDataFrame.crs := crs |})))
        as [c Hc] by (by destruct crs).
      simpl. rewrite Hc. eexists. split; [done|]. simpl.
      split; f_equal; rewrite !map_map; by apply map_ext.
    + unfold ret. eexists. split; [done|]. simpl.
      split; f_equal; rewrite !map_map; by apply map_ext.
Qed.

End Speeds.

Lemma missing_speed_defaults_to_20_sample :
  (Row2021.speed_average_pos (add_columns_2021 road_23) = 20%float ∧
   Row2021.pos_minutes (add_columns_2021 road_23)
     = ((Row2021.kilometers (add_columns_2021 road_23) / 20) * 60)%float) ∧
  (Row2021.speed_average_neg (add_columns_2021 road_23) = 20%float ∧
   Row2021.neg_minutes (add_columns_2021 road_23)
     = ((Row2021.kilometers (add_columns_2021 road_23) / 20) * 60)%float) ∧
  (Row2021.speed_average_pos (add_columns_2021 road_speed0) = 0%float ∧
   Row2021.pos_minutes (add_columns_2021 road_speed0)
     = ((Row2021.kilometers (add_columns_2021 road_speed0) / 0) * 60)%float) ∧
  (Row2021.speed_average_neg (add_columns_2021 road_12) = 15%float ∧
   Row2021.neg_minutes (add_columns_2021 road_12)
     = ((Row2021.kilometers (add_columns_2021 road_12) / 15) * 60)%float) ∧
  (∃ gdf,
     @get_tomtom_gdf_2021 web_mercator sample_db fence_latlon true []
       = ([] ++ [select_network_2021 fence_latlon], Ok gdf) ∧
     map Row2021.pos_minutes (GeoDataFrame.rows gdf)
       = map (λ r, Row2021.pos_minutes (add_columns_2021 r))
             (GeoDataFrame.rows (network_2021 sample_db fence_latlon)) ∧
     map Row2021.neg_minutes (GeoDataFrame.rows gdf)
       = map (λ r, Row2021.neg_minutes (add_columns_2021 r))
             (GeoDataFrame.rows (network_2021 sample_db fence_latlon))).
Proof.
  pose proof (@missing_speed_defaults_to_20 web_mercator)
    as (Hpos & Hneg & Hpos' & Hneg' & _ & Hget).
  split; [apply Hpos; by_evaluation|].
  split; [apply Hneg; by_evaluation|].
  split; [apply (Hpos' road_speed0); by_evaluation|].
  split; [apply (Hneg' road_12); by_evaluation|].
  apply Hget. compute_done.
Defined.

(** C4 (as stated) fails for a speed of 0: the road [road_speed0] of one
    kilometre gets infinitely many minutes in the positive direction, not
    the 3 minutes of [(1 / 20) * 60]. *)
Lemma zero_speed_is_not_defaulted :
  ¬ (∀ r,
       Row2021.speed_average_pos r = 0%float →
       Row2021.pos_minutes (add_columns_2021 r)
         = ((Row2021.kilometers (add_columns_2021 r) / 20) * 60)%float) ∧
  Row2021.pos_minutes (add_columns_2021 road_speed0) = infinity ∧
  ((Row2021.kilometers (add_columns_2021 road_speed0) / 20) * 60)%float
    = 3%float.
Proof.
  split; [|split; by_evaluation].
  intros Hall. specialize (Hall road_speed0 eq_refl).
  apply (f_equal PrimFloat.is_infinity) in Hall.
  vm_compute in Hall. discriminate Hall.
Qed.

(** ** C8 and C10 *)

Lemma py_eq_str_true v s : py_eq_str v s = true ↔ v = PyStr s.
Proof.
  destruct v as [z|s']; simpl.
  - split; done.
  - rewrite bool_decide_eq_true. split; [by intros ->|by intros [= ->]].
Qed.

Lemma py_eq_str_false v s : v ≠ PyStr s → py_eq_str v s = false.
Proof.
  intros Hne. destruct (py_eq_str v s) eqn:Heq; [|done].
  by apply py_eq_str_true in Heq.
Qed.

Section Dispatch.
Context `{Collaborators}.

(** C10. When the crs of the geofence is not EPSG:4326 the reader raises
    the geofence [TypeError], whatever the vintage and the connection, and
    has sent no query: the log of queries is the one it started with. *)
Theorem geofence_crs_checked_first :
  ∀ con geofence vintage xy log,
    Geofence.crs geofence ≠ LATLON_CRS →
    read_tomtom_nxmap_from_sql con geofence vintage xy log
      = (log, Err (TypeError (geofence_crs_msg (Geofence.crs geofence)))).
Proof.
  intros con geofence vintage xy log Hcrs.
  unfold read_tomtom_nxmap_from_sql.
  by rewrite bool_decide_eq_false_2.
Qed.

(** C8 (as amended). For a geofence in EPSG:4326 and a vintage that is
    neither the string '2021' nor the string '2017', the reader raises the
    [TypeError] "vintage ... not supported" and has sent no query. Whatever
    the geofence, it raises a [TypeError] and returns no graph. *)
Theorem unsupported_vintage_raises :
  (∀ con geofence vintage xy log,
     vintage ≠ PyStr "2021" → vintage ≠ PyStr "2017" →
     Geofence.crs geofence = LATLON_CRS →
     read_tomtom_nxmap_from_sql con geofence vintage xy log
       = (log, Err (TypeError (vintage_msg vintage)))) ∧
  (∀ con geofence vintage xy log,
     vintage ≠ PyStr "2021" → vintage ≠ PyStr "2017" →
     ∃ m, read_tomtom_nxmap_from_sql con geofence vintage xy log
            = (log, Err (TypeError m))).
Proof.
  assert (∀ con geofence vintage xy log,
            vintage ≠ PyStr "2021" → vintage ≠ PyStr "2017" →
            Geofence.crs geofence = LATLON_CRS →
            read_tomtom_nxmap_from_sql con geofence vintage xy log
              = (log, Err (TypeError (vintage_msg vintage)))) as Hv.
  { intros con geofence vintage xy log H21 H17 Hcrs.
    unfold read_tomtom_nxmap_from_sql.
    rewrite bool_decide_eq_true_2 by done. simpl.
    by rewrite (py_eq_str_false _ _ H21), (py_eq_str_false _ _ H17). }
  split; [exact Hv|].
  intros con geofence vintage xy log H21 H17.
  destruct (decide (Geofence.crs geofence = LATLON_CRS)) as [Hcrs|Hcrs].
  - eexists. by apply Hv.
  - eexists. unfold read_tomtom_nxmap_from_sql.
    by rewrite bool_decide_eq_false_2.
Qed.

End Dispatch.

Lemma geofence_crs_checked_first_sample :
  @read_tomtom_nxmap_from_sql web_mercator sample_db fence_mercator
     (PyStr "2021") true []
    = ([], Err (TypeError (geofence_crs_msg (EPSG 3857)))).
Proof.
  apply (@geofence_crs_checked_first web_mercator). compute_done.
Defined.

Lemma unsupported_vintage_raises_sample :
  @read_tomtom_nxmap_from_sql web_mercator sample_db fence_latlon
     (PyInt 2021) true []
    = ([], Err (TypeError (vintage_msg (PyInt 2021)))) ∧
  ∃ m, @read_tomtom_nxmap_from_sql web_mercator sample_db fence_mercator
         (PyStr "2019") true []
         = ([], Err (TypeError m)).
Proof.
  split.
  - apply (proj1 (@unsupported_vintage_raises web_mercator)); compute_done.
  - apply (proj2 (@unsupported_vintage_raises web_mercator)); compute_done.
Defined.

(** C8 (as stated) fails when the geofence is not in EPSG:4326: the reader
    then raises the geofence error, not the one about the vintage. *)
Lemma geofence_error_precedes_vintage_error :
  ¬ (∀ con geofence vintage xy log,
       vintage ≠ PyStr "2021" → vintage ≠ PyStr "2017" →
       snd (@read_tomtom_nxmap_from_sql web_mercator con geofence vintage xy log)
         = Err (TypeError (vintage_msg vintage))) ∧
  @read_tomtom_nxmap_from_sql web_mercator sample_db fence_mercator
     (PyStr "2019") true []
    = ([], Err (TypeError (geofence_crs_msg (EPSG 3857)))).
Proof.
  split; [|by_evaluation].
  intros Hall.
  specialize (Hall sample_db fence_mercator (PyStr "2019") true []).
  vm_compute in Hall. by discriminate Hall.
Qed.

(** ** C9 *)

Lemma graph_add_edges_from G ebunch :
  graph (add_edges_from G ebunch) = graph G.
Proof.
  unfold add_edges_from. revert G.
  induction ebunch as [|e ebunch IH]; intros G; simpl; [done|].
  by rewrite IH.
Qed.

Lemma graph_built_graph_2021 gdf : graph (built_graph_2021 gdf) = ∅.
Proof. unfold built_graph_2021. by rewrite !graph_add_edges_from. Qed.

Lemma graph_built_graph_2017 gdf : graph (built_graph_2017 gdf) = ∅.
Proof. unfold built_graph_2017. by rewrite !graph_add_edges_from. Qed.

(** C9. Setting the graph attributes changes neither the nodes nor the
    edges and their attributes. It sets the five keys "crs",
    "distance_weight", "time_weight", "geometry_key" and "road_id_key" of
    the graph-level dictionary and leaves every other key as it was. The
    graph a builder returns has the nodes and the edges of the largest
    component, and these five entries are its whole dictionary. *)
Theorem graph_attributes_only_decorate :
  (∀ crs G,
     nodes (set_graph_attributes crs G) = nodes G ∧
     edges (set_graph_attributes crs G) = edges G ∧
     graph (set_graph_attributes crs G) !! "crs" = Some (crs_attr crs) ∧
     graph (set_graph_attributes crs G) !! "distance_weight"
       = Some (str_attr "kilometers") ∧
     graph (set_graph_attributes crs G) !! "time_weight"
       = Some (str_attr "minutes") ∧
     graph (set_graph_attributes crs G) !! "geometry_key"
       = Some (str_attr "geom") ∧
     graph (set_graph_attributes crs G) !! "road_id_key"
       = Some (str_attr "road_id") ∧
     ∀ key : string,
       key ∉ ["crs"; "distance_weight"; "time_weight"; "geometry_key";
              "road_id_key"] →
       graph (set_graph_attributes crs G) !! key = graph G !! key) ∧
  (∀ gdf G,
     tomtom_gdf_to_nx_graph_2021 gdf = Ok G →
     largest_component (built_graph_2021 gdf)
       = Ok {| graph := ∅; nodes := nodes G; edges := edges G |} ∧
     graph G =
       list_to_map
         [("road_id_key", str_attr "road_id"); ("geometry_key", str_attr "geom");
          ("time_weight", str_attr "minutes");
          ("distance_weight", str_attr "kilometers");
          ("crs", crs_attr (GeoDataFrame.crs gdf))]) ∧
  (∀ gdf G,
     tomtom_gdf_to_nx_graph_2017 gdf = Ok G →
     largest_component (built_graph_2017 gdf)
       = Ok {| graph := ∅; nodes := nodes G; edges := edges G |} ∧
     graph G =
       list_to_map
         [("road_id_key", str_attr "road_id"); ("geometry_key", str_attr "geom");
          ("time_weight", str_attr "minutes");
          ("distance_weight", str_attr "kilometers");
          ("crs", crs_attr (GeoDataFrame.crs gdf))]).
Proof.
  split; [|split].
  - intros crs G. unfold set_graph_attributes. simpl.
    split; [done|]. split; [done|].
    split; [by simplify_map_eq|]. split; [by simplify_map_eq|].
    split; [by simplify_map_eq|]. split; [by simplify_map_eq|].
    split; [by simplify_map_eq|].
    intros key Hkey.
    rewrite !lookup_insert_ne; [done|set_solver..].
  - intros gdf G. unfold tomtom_gdf_to_nx_graph_2021.
    destruct (largest_component (built_graph_2021 gdf)) as [G'|e] eqn:HG';
      simpl; [|done].
    intros [= <-].
    destruct (largest_component_spec _ _ (well_formed_built_graph_2021 gdf) HG')
      as (_ & _ & _ & Hg & _).
    rewrite graph_built_graph_2021 in Hg.
    destruct G' as [gr ns es]. simpl in *. by subst.
  - intros gdf G. unfold tomtom_gdf_to_nx_graph_2017.
    destruct (traverse end_points_2017 (GeoDataFrame.rows gdf)); simpl; [|done].
    destruct (largest_component (built_graph_2017 gdf)) as [G'|e] eqn:HG';
      simpl; [|done].
    intros [= <-].
    destruct (largest_component_spec _ _ (well_formed_built_graph_2017 gdf) HG')
      as (_ & _ & _ & Hg & _).
    rewrite graph_built_graph_2017 in Hg.
    destruct G' as [gr ns es]. simpl in *. by subst.
Qed.

Lemma graph_attributes_only_decorate_sample :
  graph (set_graph_attributes None (built_graph_2021 sample_frame_2021)) !! "name"
    = graph (built_graph_2021 sample_frame_2021) !! "name" ∧
  (let G := graph_of (tomtom_gdf_to_nx_graph_2021 sample_frame_2021) in
   largest_component (built_graph_2021 sample_frame_2021)
     = Ok {| graph := ∅; nodes := nodes G; edges := edges G |} ∧
   graph G =
     list_to_map
       [("road_id_key", str_attr "road_id"); ("geometry_key", str_attr "geom");
        ("time_weight", str_attr "minutes");
        ("distance_weight", str_attr "kilometers");
        ("crs", crs_attr (GeoDataFrame.crs sample_frame_2021))]) ∧
  (let G := graph_of (tomtom_gdf_to_nx_graph_2017
                        (frame_2017 [fillna_2017 (add_kilometers_2017 street_12)])) in
   largest_component
       (built_graph_2017 (frame_2017 [fillna_2017 (add_kilometers_2017 street_12)]))
     = Ok {| graph := ∅; nodes := nodes G; edges := edges G |} ∧
   graph G =
     list_to_map
       [("road_id_key", str_attr "road_id"); ("geometry_key", str_attr "geom");
        ("time_weight", str_attr "minutes");
        ("distance_weight", str_attr "kilometers");
        ("crs", crs_attr (Some LATLON_CRS))]).
Proof.
  pose proof graph_attributes_only_decorate as (Hset & H21 & H17).
  split; [|split].
  - apply (Hset None (built_graph_2021 sample_frame_2021)). compute_done.
  - apply (H21 sample_frame_2021). by_evaluation.
  - apply (H17 (frame_2017 [fillna_2017 (add_kilometers_2017 street_12)])).
    by_evaluation.
Defined.

(** * Further properties of the readers *)

(** ** What [add_edges_from] stores *)

Lemma edges_add_edges_from G ebunch :
  edges (add_edges_from G ebunch) = list_to_map (reverse ebunch) ∪ edges G.
Proof.
  unfold add_edges_from. revert G.
  induction ebunch as [|[key d] ebunch IH]; intros G; simpl.
  - by rewrite (left_id_L ∅ (∪)).
  - rewrite IH, reverse_cons.
    rewrite (list_to_map_app (reverse ebunch) [(key, d)]). simpl.
    rewrite <- (assoc_L (∪)). f_equal.
    unfold edge_from, edge_to, edge_key, edge_data. simpl.
    destruct key as [[u v] k]. simpl.
    by rewrite insert_union_singleton_l, insert_empty.
Qed.

Lemma nodes_add_edges_from G ebunch :
  nodes (add_edges_from G ebunch)
    = nodes G ∪ list_to_set (map edge_from ebunch)
              ∪ list_to_set (map edge_to ebunch).
Proof.
  unfold add_edges_from. revert G.
  induction ebunch as [|e ebunch IH]; intros G; simpl.
  - set_solver.
  - rewrite IH. simpl. set_solver.
Qed.

(** Insertion and lookup. After [add_edges_from], the nodes are the old
    nodes and the endpoints of the new edges. Under a (from, to, key) that
    none of the new edges has, the graph holds what it held before; under
    the (from, to, key) of a new edge it holds the attributes of the last
    new edge with that (from, to, key): a later edge overwrites an earlier
    one. *)
Theorem add_edges_from_last_wins :
  (∀ G ebunch,
     nodes (add_edges_from G ebunch)
       = nodes G ∪ list_to_set (map edge_from ebunch)
                 ∪ list_to_set (map edge_to ebunch)) ∧
  (∀ G ebunch key,
     key ∉ map fst ebunch →
     edges (add_edges_from G ebunch) !! key = edges G !! key) ∧
  (∀ G before key d after,
     key ∉ map fst after →
     edges (add_edges_from G (before ++ (key, d) :: after)) !! key = Some d).
Proof.
  split; [exact nodes_add_edges_from|]. split.
  - intros G ebunch key Hkey. rewrite edges_add_edges_from.
    rewrite lookup_union_r; [done|].
    apply not_elem_of_list_to_map_1.
    intros Hin. apply Hkey.
    apply list_elem_of_fmap in Hin as (e & -> & He).
    apply list_elem_of_fmap. exists e. split; [done|].
    rewrite elem_of_reverse in He. exact He.
  - intros G before key d after Hkey. rewrite edges_add_edges_from.
    rewrite reverse_app, reverse_cons, <- !(assoc_L (++)).
    rewrite (list_to_map_app (reverse after) ([(key, d)] ++ reverse before)).
    simpl. rewrite <- !(assoc_L (∪)).
    rewrite lookup_union_r.
    + apply lookup_union_Some_l. apply lookup_insert_eq.
    + apply not_elem_of_list_to_map_1.
      intros Hin. apply Hkey.
      apply list_elem_of_fmap in Hin as (e & -> & He).
      apply list_elem_of_fmap. exists e. split; [done|].
      rewrite elem_of_reverse in He. exact He.
Qed.

Lemma add_edges_from_last_wins_sample :
  edges (add_edges_from empty_graph
           ([] ++ edge_tf_2021 road_loop :: [])) !! (1%Z, 2%Z, IntId 7) = None ∧
  edges (add_edges_from empty_graph
           ([edge_tf_2021 road_loop]
              ++ ((4%Z, 4%Z, IntId 11), edge_data (edge_ft_2021 road_loop)) :: []))
    !! (4%Z, 4%Z, IntId 11)
    = Some (edge_data (edge_ft_2021 road_loop)).
Proof.
  pose proof add_edges_from_last_wins as (_ & Hold & Hnew).
  split.
  - rewrite (Hold empty_graph ([] ++ edge_tf_2021 road_loop :: [])
               (1%Z, 2%Z, IntId 7)); [done|compute_done].
  - apply (Hnew empty_graph [edge_tf_2021 road_loop] (4%Z, 4%Z, IntId 11)).
    compute_done.
Defined.

(** ** The edges of a whole frame *)

Lemma masks_2017_length gdf :
  length (oneway_ft_2017 gdf) + length (oneway_tf_2017 gdf)
    + length (twoway_2017 gdf) = length (GeoDataFrame.rows gdf).
Proof.
  unfold oneway_ft_2017, oneway_tf_2017, twoway_2017.
  induction (GeoDataFrame.rows gdf) as [|r l IH]; [done|].
  rewrite !filter_cons.
  destruct (decide (Row2017.oneway r = "FT")) as [Hft|Hft];
    destruct (decide (Row2017.oneway r = "TF")) as [Htf|Htf];
    destruct (decide (¬ Row2017.oneway r = "FT" ∧ ¬ Row2017.oneway r = "TF"))
      as [Hn|Hn]; simpl; try lia; try tauto; congruence.
Qed.

Lemma masks_2021_length gdf :
  length (oneway_ft_2021 gdf) + length (oneway_tf_2021 gdf)
    + length (twoway_2021 gdf) ≤ length (GeoDataFrame.rows gdf).
Proof.
  unfold oneway_ft_2021, oneway_tf_2021, twoway_2021.
  induction (GeoDataFrame.rows gdf) as [|r l IH]; [done|].
  rewrite !filter_cons.
  destruct (decide (Row2021.simple_traffic_direction r = 2%Z)) as [H2|H2];
    destruct (decide (Row2021.simple_traffic_direction r = 3%Z)) as [H3|H3];
    destruct (decide (Row2021.simple_traffic_direction r ∈ [1; 9]%Z))
      as [Hn|Hn]; simpl; try lia;
    apply twoway_code_2021 in Hn; lia.
Qed.

Lemma elem_of_expand_2021 gdf e :
  e ∈ expand_2021 gdf ↔
  ∃ r, r ∈ GeoDataFrame.rows gdf ∧
       ((e = edge_ft_2021 r ∧ Row2021.simple_traffic_direction r ∈ [1; 2; 9]%Z) ∨
        (e = edge_tf_2021 r ∧ Row2021.simple_traffic_direction r ∈ [1; 3; 9]%Z)).
Proof.
  unfold expand_2021, twoway_edges_tf_2021, twoway_edges_ft_2021,
    oneway_edges_ft_2021, oneway_edges_tf_2021, twoway_2021, oneway_ft_2021,
    oneway_tf_2021.
  rewrite !elem_of_app, !list_elem_of_fmap.
  setoid_rewrite list_elem_of_filter.
  split.
  - intros [(r & -> & Hd & Hr)|[(r & -> & Hd & Hr)|[(r & -> & Hd & Hr)
              |(r & -> & Hd & Hr)]]]; exists r; (split; [done|]).
    + right. split; [done|]. set_solver.
    + left. split; [done|]. set_solver.
    + left. split; [done|]. set_solver.
    + right. split; [done|]. set_solver.
  - intros (r & Hr & [[-> Hd]|[-> Hd]]).
    + destruct (decide (Row2021.simple_traffic_direction r = 2%Z)).
      * right. right. left. by exists r.
      * right. left. exists r. split; [done|]. split; [|done]. set_solver.
    + destruct (decide (Row2021.simple_traffic_direction r = 3%Z)).
      * right. right. right. by exists r.
      * left. exists r. split; [done|]. split; [|done]. set_solver.
Qed.

Lemma elem_of_expand_2017 gdf e :
  e ∈ expand_2017 gdf ↔
  ∃ r, r ∈ GeoDataFrame.rows gdf ∧
       ((e = edge_ft_2017 r ∧ Row2017.oneway r ≠ "TF") ∨
        (e = edge_tf_2017 r ∧ Row2017.oneway r ≠ "FT")).
Proof.
  unfold expand_2017, twoway_edges_tf_2017, twoway_edges_ft_2017,
    oneway_edges_ft_2017, oneway_edges_tf_2017, twoway_2017, oneway_ft_2017,
    oneway_tf_2017.
  rewrite !elem_of_app, !list_elem_of_fmap.
  setoid_rewrite list_elem_of_filter.
  split.
  - intros [(r & -> & Hd & Hr)|[(r & -> & Hd & Hr)|[(r & -> & Hd & Hr)
              |(r & -> & Hd & Hr)]]]; exists r; (split; [done|]).
    + right. split; [done|]. tauto.
    + left. split; [done|]. tauto.
    + left. split; [done|]. congruence.
    + right. split; [done|]. congruence.
  - intros (r & Hr & [[-> Hd]|[-> Hd]]).
    + destruct (decide (Row2017.oneway r = "FT")).
      * right. right. left. by exists r.
      * right. left. by exists r.
    + destruct (decide (Row2017.oneway r = "TF")).
      * right. right. right. by exists r.
      * left. by exists r.
Qed.

(** The edges of a frame are the edges of its rows, each row taken by
    itself. A 2021 row gives its forward edge when its code is 1, 2 or 9
    and its backward edge when its code is 1, 3 or 9; a 2017 row gives its
    forward edge unless its [oneway] is "TF" and its backward edge unless it
    is "FT". So a 2017 frame has at least as many edges as rows, one more
    for each two-way row, and a 2021 frame at most twice as many edges as
    rows. *)
Theorem expand_frame :
  (∀ gdf e,
     e ∈ expand_2021 gdf ↔
     ∃ r, r ∈ GeoDataFrame.rows gdf ∧
          ((e = edge_ft_2021 r ∧ Row2021.simple_traffic_direction r ∈ [1; 2; 9]%Z) ∨
           (e = edge_tf_2021 r ∧ Row2021.simple_traffic_direction r ∈ [1; 3; 9]%Z))) ∧
  (∀ gdf e,
     e ∈ expand_2017 gdf ↔
     ∃ r, r ∈ GeoDataFrame.rows gdf ∧
          ((e = edge_ft_2017 r ∧ Row2017.oneway r ≠ "TF") ∨
           (e = edge_tf_2017 r ∧ Row2017.oneway r ≠ "FT"))) ∧
  (∀ gdf, length (expand_2017 gdf)
            = length (GeoDataFrame.rows gdf) + length (twoway_2017 gdf)) ∧
  (∀ gdf, length (expand_2021 gdf) ≤ 2 * length (GeoDataFrame.rows gdf)).
Proof.
  split; [exact elem_of_expand_2021|].
  split; [exact elem_of_expand_2017|]. split.
  - intros gdf. pose proof (masks_2017_length gdf).
    unfold expand_2017, twoway_edges_tf_2017, twoway_edges_ft_2017,
      oneway_edges_ft_2017, oneway_edges_tf_2017.
    rewrite !length_app, !length_map. lia.
  - intros gdf. pose proof (masks_2021_length gdf).
    unfold expand_2021, twoway_edges_tf_2021, twoway_edges_ft_2021,
      oneway_edges_ft_2021, oneway_edges_tf_2021.
    rewrite !length_app, !length_map. lia.
Qed.

(** ** When the builders return a graph *)

Lemma strongly_connected_components_nonempty G :
  nodes G ≠ ∅ → strongly_connected_components G ≠ [].
Proof.
  intros Hn. unfold strongly_connected_components.
  destruct (elements (nodes G)) as [|u todo] eqn:Hel.
  - apply elements_empty_inv in Hel. by apply leibniz_equiv in Hel.
  - simpl. rewrite decide_False by set_solver. done.
Qed.

Lemma largest_component_is_Ok G : nodes G ≠ ∅ → is_Ok (largest_component G).
Proof.
  intros Hn%strongly_connected_components_nonempty.
  unfold largest_component. simpl.
  destruct (strongly_connected_components G) as [|c l]; [done|].
  simpl. by eexists.
Qed.

Lemma nodes_add_edges_from_nonempty G ebunch :
  ebunch ≠ [] → nodes (add_edges_from G ebunch) ≠ ∅.
Proof.
  destruct ebunch as [|e ebunch]; [done|]. intros _.
  rewrite nodes_add_edges_from. simpl. set_solver.
Qed.

Lemma expand_2021_nil gdf :
  expand_2021 gdf = [] ↔
  ∀ r, r ∈ GeoDataFrame.rows gdf →
       Row2021.simple_traffic_direction r ∉ [1; 2; 3; 9]%Z.
Proof.
  split.
  - intros Hnil r Hr Hd.
    assert (edge_ft_2021 r ∈ expand_2021 gdf ∨ edge_tf_2021 r ∈ expand_2021 gdf)
      as Hin.
    { rewrite !elem_of_expand_2021.
      destruct (decide (Row2021.simple_traffic_direction r = 3%Z)) as [H3|H3].
      - right. exists r. split; [done|]. right. split; [done|]. set_solver.
      - left. exists r. split; [done|]. left. split; [done|]. set_solver. }
    rewrite Hnil in Hin. destruct Hin as [Hin|Hin]; by apply elem_of_nil in Hin.
  - intros Hall. destruct (expand_2021 gdf) as [|e l] eqn:He; [done|].
    assert (e ∈ expand_2021 gdf) as Hin by (rewrite He; by left).
    apply elem_of_expand_2021 in Hin as (r & Hr & [[_ Hd]|[_ Hd]]);
      destruct (Hall r Hr); set_solver.
Qed.

(** The 2021 builder returns a graph as soon as one row of the frame has
    one of the direction codes 1, 2, 3 and 9, and raises the [ValueError]
    of [max] when no row has: it never raises anything else. *)
Theorem builder_2021_outcome :
  (∀ gdf,
     (∃ r, r ∈ GeoDataFrame.rows gdf ∧
           Row2021.simple_traffic_direction r ∈ [1; 2; 3; 9]%Z) →
     is_Ok (tomtom_gdf_to_nx_graph_2021 gdf)) ∧
  (∀ gdf,
     (∀ r, r ∈ GeoDataFrame.rows gdf →
           Row2021.simple_traffic_direction r ∉ [1; 2; 3; 9]%Z) →
     tomtom_gdf_to_nx_graph_2021 gdf = Err (ValueError max_empty_msg)).
Proof.
  split.
  - intros gdf (r & Hr & Hd).
    assert (expand_2021 gdf ≠ []) as Hne.
    { intros Hnil. by apply (proj1 (expand_2021_nil gdf) Hnil r Hr). }
    unfold tomtom_gdf_to_nx_graph_2021.
    destruct (largest_component_is_Ok (built_graph_2021 gdf)) as [G HG].
    { rewrite built_graph_2021_expand.
      by apply nodes_add_edges_from_nonempty. }
    rewrite HG. simpl. by eexists.
  - intros gdf Hall%expand_2021_nil.
    unfold tomtom_gdf_to_nx_graph_2021.
    by rewrite built_graph_2021_expand, Hall.
Qed.

Lemma builder_2021_outcome_sample :
  is_Ok (tomtom_gdf_to_nx_graph_2021 (frame_2021 [road_31_code4; road_23])) ∧
  tomtom_gdf_to_nx_graph_2021 (frame_2021 [road_31_code4])
    = Err (ValueError max_empty_msg).
Proof.
  split.
  - apply (proj1 builder_2021_outcome). exists road_23.
    split; [simpl; set_solver|compute_done].
  - apply (proj2 builder_2021_outcome). intros r Hr.
    apply list_elem_of_singleton in Hr as ->. compute_done.
Defined.

Lemma traverse_end_points_2017_Ok l :
  (∀ r, r ∈ l → coords (Row2017.wkb_geometry r) ≠ []) →
  is_Ok (traverse end_points_2017 l).
Proof.
  induction l as [|r l IH]; intros Hall; simpl; [by eexists|].
  unfold end_points_2017 at 1.
  destruct (coords (Row2017.wkb_geometry r)) as [|c cs] eqn:Hc.
  { exfalso. apply (Hall r); [by left|done]. }
  destruct (last_is_Some (c :: cs)) as [_ [cn Hcn]]; [done|].
  rewrite Hcn. simpl.
  destruct IH as [ends Hends].
  { intros r' Hr'. apply Hall. by right. }
  rewrite Hends. simpl. by eexists.
Qed.

Lemma traverse_end_points_2017_Err l r :
  r ∈ l → coords (Row2017.wkb_geometry r) = [] →
  traverse end_points_2017 l = Err (IndexError index_msg).
Proof.
  intros Hr Hc. induction l as [|r' l IH]; [by apply elem_of_nil in Hr|].
  simpl. destruct (end_points_2017 r') as [ends|e] eqn:He; simpl.
  - apply elem_of_cons in Hr as [->|Hr].
    + unfold end_points_2017 in He. by rewrite Hc in He.
    + by rewrite (IH Hr).
  - unfold end_points_2017 in He.
    destruct (head (coords (Row2017.wkb_geometry r'))),
             (last (coords (Row2017.wkb_geometry r'))); by inversion He.
Qed.

(** The 2017 builder raises an [IndexError] when some row has a geometry
    without coordinates. Otherwise it raises the [ValueError] of [max] on
    the frame without rows, and returns a graph on every other frame,
    whatever the [oneway] cells hold. *)
Theorem builder_2017_outcome :
  (∀ gdf r,
     r ∈ GeoDataFrame.rows gdf → coords (Row2017.wkb_geometry r) = [] →
     tomtom_gdf_to_nx_graph_2017 gdf = Err (IndexError index_msg)) ∧
  (∀ gdf,
     GeoDataFrame.rows gdf = [] →
     tomtom_gdf_to_nx_graph_2017 gdf = Err (ValueError max_empty_msg)) ∧
  (∀ gdf,
     GeoDataFrame.rows gdf ≠ [] →
     (∀ r, r ∈ GeoDataFrame.rows gdf → coords (Row2017.wkb_geometry r) ≠ []) →
     is_Ok (tomtom_gdf_to_nx_graph_2017 gdf)).
Proof.
  split; [|split].
  - intros gdf r Hr Hc. unfold tomtom_gdf_to_nx_graph_2017.
    by rewrite (traverse_end_points_2017_Err _ r Hr Hc).
  - intros [rows crs] Hrows. simpl in Hrows. by subst.
  - intros gdf Hrows Hgeom. unfold tomtom_gdf_to_nx_graph_2017.
    destruct (traverse_end_points_2017_Ok _ Hgeom) as [ends ->]. simpl.
    destruct (largest_component_is_Ok (built_graph_2017 gdf)) as [G HG].
    { rewrite built_graph_2017_expand.
      apply nodes_add_edges_from_nonempty.
      intros Hnil. apply Hrows.
      apply (f_equal length) in Hnil.
      pose proof (masks_2017_length gdf).
      unfold expand_2017, twoway_edges_tf_2017, twoway_edges_ft_2017,
        oneway_edges_ft_2017, oneway_edges_tf_2017 in Hnil.
      rewrite !length_app, !length_map in Hnil. simpl in Hnil.
      apply nil_length_inv. lia. }
    rewrite HG. simpl. by eexists.
Qed.

Lemma builder_2017_outcome_sample :
  tomtom_gdf_to_nx_graph_2017 (frame_2017 [street_12; street_no_geometry])
    = Err (IndexError index_msg) ∧
  tomtom_gdf_to_nx_graph_2017 (frame_2017 [])
    = Err (ValueError max_empty_msg) ∧
  is_Ok (tomtom_gdf_to_nx_graph_2017 (frame_2017 [street_23])).
Proof.
  pose proof builder_2017_outcome as (Hidx & Hval & Hok).
  split; [|split].
  - apply (Hidx _ street_no_geometry); [simpl; set_solver|by_evaluation].
  - apply Hval. by_evaluation.
  - apply Hok; [done|]. intros r Hr.
    apply list_elem_of_singleton in Hr as ->. compute_done.
Defined.

(** ** The components of a built graph *)

Lemma component_of_self G u : u ∈ component_of G u.
Proof. apply elem_of_component_of. split; apply rtc_refl. Qed.

Lemma component_of_eq G u v :
  v ∈ component_of G u → component_of G v = component_of G u.
Proof.
  intros [Huv Hvu]%elem_of_component_of.
  apply set_eq. intros x. rewrite !elem_of_component_of.
  unfold path in *. split; intros [H1 H2]; split; etrans; done.
Qed.

Lemma components_from_seen G todo seen c :
  c ∈ components_from G todo seen → ∃ u, (u ∉ seen) ∧ c = component_of G u.
Proof.
  revert seen. induction todo as [|w todo IH]; intros seen; simpl.
  - by intros ?%elem_of_nil.
  - case_decide as Hw; [by apply IH|].
    intros [->|(u & Hu & ->)%IH]%elem_of_cons.
    + by exists w.
    + exists u. split; [|done].
      intros Hs. apply Hu, elem_of_union. by left.
Qed.

(** Once a component is listed its nodes are seen, so that no later
    component shares a node with it. *)
Lemma components_from_disjoint G todo seen :
  (∀ u v, u ∈ seen → v ∈ component_of G u → v ∈ seen) →
  NoDup (components_from G todo seen) ∧
  ∀ c u, c ∈ components_from G todo seen → u ∈ c → u ∉ seen.
Proof.
  revert seen. induction todo as [|w todo IH]; intros seen Hseen; simpl.
  - split; [constructor|]. by intros c u ?%elem_of_nil.
  - case_decide as Hw; [by apply IH|].
    destruct (IH (seen ∪ component_of G w)) as [Hnd Hout].
    { intros u v [Hu|Hu]%elem_of_union Hv.
      - apply elem_of_union. left. by eapply Hseen.
      - apply elem_of_union. right. by rewrite <- (component_of_eq G w u). }
    split.
    + constructor; [|done]. intros Hin.
      apply (Hout _ w Hin (component_of_self G w)).
      apply elem_of_union. right. apply component_of_self.
    + intros c u [->|Hc]%elem_of_cons Hu.
      * intros Hus. apply Hw. eapply Hseen; [exact Hus|].
        apply elem_of_component_of. apply elem_of_component_of in Hu. tauto.
      * specialize (Hout c u Hc Hu).
        intros Hs. apply Hout, elem_of_union. by left.
Qed.

Lemma components_share_node G c1 c2 u :
  c1 ∈ strongly_connected_components G →
  c2 ∈ strongly_connected_components G →
  u ∈ c1 → u ∈ c2 → c1 = c2.
Proof.
  intros (w1 & _ & ->)%elem_of_strongly_connected_components
         (w2 & _ & ->)%elem_of_strongly_connected_components H1 H2.
  by rewrite <- (component_of_eq G w1 u), <- (component_of_eq G w2 u).
Qed.

(** The components that the reduction step chooses from, lines 237 and
    365, partition the junctions of the built graph: every junction is in
    one component and in one only, no component is listed twice, and two
    junctions are in the same component exactly when each reaches the
    other by a directed path. *)
Theorem components_partition_junctions :
  ∀ G,
    well_formed G →
    NoDup (strongly_connected_components G) ∧
    (∀ u, u ∈ nodes G → ∃ c, c ∈ strongly_connected_components G ∧ u ∈ c) ∧
    (∀ c1 c2 u,
       c1 ∈ strongly_connected_components G →
       c2 ∈ strongly_connected_components G →
       u ∈ c1 → u ∈ c2 → c1 = c2) ∧
    (∀ c u, c ∈ strongly_connected_components G → u ∈ c →
            u ∈ nodes G ∧ ∀ v, v ∈ c ↔ path G u v ∧ path G v u).
Proof.
  intros G Hwf. split; [|split; [|split]].
  - apply components_from_disjoint. set_solver.
  - intros u Hu. apply components_from_cover; [|set_solver].
    by apply elem_of_elements.
  - apply components_share_node.
  - intros c u (w & Hw & ->)%elem_of_strongly_connected_components Hu.
    split; [by apply (component_of_nodes G w)|].
    intros v. rewrite <- (component_of_eq G w u Hu).
    apply elem_of_component_of.
Qed.

Lemma components_partition_junctions_sample :
  NoDup (strongly_connected_components (built_graph_2021 sample_frame_2021)) ∧
  (∀ u, u ∈ nodes (built_graph_2021 sample_frame_2021) →
        ∃ c, c ∈ strongly_connected_components (built_graph_2021 sample_frame_2021)
             ∧ u ∈ c) ∧
  (∀ c1 c2 u,
     c1 ∈ strongly_connected_components (built_graph_2021 sample_frame_2021) →
     c2 ∈ strongly_connected_components (built_graph_2021 sample_frame_2021) →
     u ∈ c1 → u ∈ c2 → c1 = c2) ∧
  (∀ c u,
     c ∈ strongly_connected_components (built_graph_2021 sample_frame_2021) →
     u ∈ c →
     u ∈ nodes (built_graph_2021 sample_frame_2021) ∧
     ∀ v, v ∈ c ↔ path (built_graph_2021 sample_frame_2021) u v
                  ∧ path (built_graph_2021 sample_frame_2021) v u).
Proof.
  apply components_partition_junctions.
  apply well_formed_built_graph_2021.
Defined.

(** ** The graph that is returned *)

Lemma well_formed_subgraph G c : well_formed G → well_formed (subgraph G c).
Proof.
  intros Hwf u v k Hk. rewrite lookup_subgraph in Hk.
  case_decide as Hc; [|by destruct Hk].
  destruct (Hwf u v k Hk). simpl. set_solver.
Qed.

Lemma components_from_all_seen G todo seen :
  (∀ u, u ∈ todo → u ∈ seen) → components_from G todo seen = [].
Proof.
  induction todo as [|w todo IH]; intros Hall; simpl; [done|].
  rewrite decide_True by (apply Hall; by left).
  apply IH. intros u Hu. apply Hall. by right.
Qed.

(** A graph that is strongly connected is its own and only component. *)
Lemma strongly_connected_components_one G :
  well_formed G → strongly_connected G → nodes G ≠ ∅ →
  strongly_connected_components G = [nodes G].
Proof.
  intros Hwf Hsc Hne. unfold strongly_connected_components.
  destruct (elements (nodes G)) as [|u todo] eqn:Hel.
  { apply elements_empty_inv in Hel. by apply leibniz_equiv in Hel. }
  assert (∀ x, x ∈ u :: todo ↔ x ∈ nodes G) as Hin.
  { intros x. rewrite <- Hel. apply elem_of_elements. }
  assert (component_of G u = nodes G) as Hc.
  { apply set_eq. intros v. rewrite elem_of_component_of. split.
    - intros [Huv _]. eapply path_ends_in_node; [done| |exact Huv].
      apply Hin. by left.
    - intros Hv. split; apply Hsc; try done; apply Hin; by left. }
  simpl. rewrite decide_False by set_solver. rewrite Hc.
  rewrite components_from_all_seen; [done|].
  intros x Hx. apply elem_of_union. right. apply Hin. by right.
Qed.

Lemma subgraph_all_nodes G : well_formed G → subgraph G (nodes G) = G.
Proof.
  intros Hwf. destruct G as [gr ns es]. unfold subgraph. simpl. f_equal.
  - set_solver.
  - apply map_filter_id. intros [[u v] k] d Hd. simpl.
    apply (Hwf u v k). simpl. by rewrite Hd.
Qed.

Lemma largest_component_fixed G :
  well_formed G → strongly_connected G → nodes G ≠ ∅ →
  largest_component G = Ok G.
Proof.
  intros Hwf Hsc Hne. unfold largest_component.
  rewrite (strongly_connected_components_one G Hwf Hsc Hne). simpl.
  by rewrite subgraph_all_nodes.
Qed.

(** What holds of the graph that the reduction step returns on a built
    graph. *)
Lemma largest_component_returns G G' :
  well_formed G → largest_component G = Ok G' →
  well_formed G' ∧ strongly_connected G' ∧ nodes G' ≠ ∅ ∧ nodes G' ⊆ nodes G.
Proof.
  intros Hwf HG'.
  destruct (largest_component_spec G G' Hwf HG') as (Hc & _ & Hsc & _ & _).
  apply largest_component_inv in HG' as (c & _ & _ & ->).
  split; [by apply well_formed_subgraph|]. split; [done|].
  split; [|simpl; set_solver].
  apply elem_of_strongly_connected_components in Hc as (w & Hw & Hc).
  rewrite Hc. pose proof (component_of_self G w). set_solver.
Qed.

Lemma builder_2021_inv gdf G :
  tomtom_gdf_to_nx_graph_2021 gdf = Ok G →
  ∃ G', largest_component (built_graph_2021 gdf) = Ok G' ∧
        G = set_graph_attributes (GeoDataFrame.crs gdf) G'.
Proof.
  unfold tomtom_gdf_to_nx_graph_2021.
  destruct (largest_component (built_graph_2021 gdf)) as [G'|e];
    simpl; [|done].
  intros [= <-]. by exists G'.
Qed.

Lemma builder_2017_inv gdf G :
  tomtom_gdf_to_nx_graph_2017 gdf = Ok G →
  ∃ G', largest_component (built_graph_2017 gdf) = Ok G' ∧
        G = set_graph_attributes (GeoDataFrame.crs gdf) G'.
Proof.
  unfold tomtom_gdf_to_nx_graph_2017.
  destruct (traverse end_points_2017 (GeoDataFrame.rows gdf)); simpl; [|done].
  destruct (largest_component (built_graph_2017 gdf)) as [G'|e];
    simpl; [|done].
  intros [= <-]. by exists G'.
Qed.

(** A graph that a builder returns is never empty, the endpoints of each
    of its edges are among its nodes, and each of its nodes is a junction
    of the graph that was built, hence an endpoint of some row of the
    frame. *)
Theorem returned_graph_is_sound :
  (∀ gdf G,
     tomtom_gdf_to_nx_graph_2021 gdf = Ok G →
     nodes G ≠ ∅ ∧ well_formed G ∧
     ∀ u, u ∈ nodes G →
          ∃ r, r ∈ GeoDataFrame.rows gdf ∧
               (u = Row2021.junction_id_from r ∨ u = Row2021.junction_id_to r)) ∧
  (∀ gdf G,
     tomtom_gdf_to_nx_graph_2017 gdf = Ok G →
     nodes G ≠ ∅ ∧ well_formed G ∧
     ∀ u, u ∈ nodes G →
          ∃ r, r ∈ GeoDataFrame.rows gdf ∧
               (u = Row2017.f_jnctid r ∨ u = Row2017.t_jnctid r)).
Proof.
  split; intros gdf G.
  - intros (G' & HG' & ->)%builder_2021_inv.
    destruct (largest_component_returns _ _ (well_formed_built_graph_2021 gdf) HG')
      as (Hwf & _ & Hne & Hsub).
    split; [done|]. split; [done|]. simpl. intros u Hu%Hsub.
    rewrite built_graph_2021_expand, nodes_add_edges_from in Hu.
    assert (∃ e, e ∈ expand_2021 gdf ∧ (u = edge_from e ∨ u = edge_to e))
      as (e & He & Hue).
    { apply elem_of_union in Hu as [[Hu|Hu]%elem_of_union|Hu].
      - by apply elem_of_empty in Hu.
      - apply elem_of_list_to_set, list_elem_of_fmap in Hu as (e & -> & He).
        exists e. tauto.
      - apply elem_of_list_to_set, list_elem_of_fmap in Hu as (e & -> & He).
        exists e. tauto. }
    apply elem_of_expand_2021 in He as (r & Hr & [[-> _]|[-> _]]);
      exists r; (split; [done|]); unfold edge_from, edge_to in Hue;
      simpl in Hue; tauto.
  - intros (G' & HG' & ->)%builder_2017_inv.
    destruct (largest_component_returns _ _ (well_formed_built_graph_2017 gdf) HG')
      as (Hwf & _ & Hne & Hsub).
    split; [done|]. split; [done|]. simpl. intros u Hu%Hsub.
    rewrite built_graph_2017_expand, nodes_add_edges_from in Hu.
    assert (∃ e, e ∈ expand_2017 gdf ∧ (u = edge_from e ∨ u = edge_to e))
      as (e & He & Hue).
    { apply elem_of_union in Hu as [[Hu|Hu]%elem_of_union|Hu].
      - by apply elem_of_empty in Hu.
      - apply elem_of_list_to_set, list_elem_of_fmap in Hu as (e & -> & He).
        exists e. tauto.
      - apply elem_of_list_to_set, list_elem_of_fmap in Hu as (e & -> & He).
        exists e. tauto. }
    apply elem_of_expand_2017 in He as (r & Hr & [[-> _]|[-> _]]);
      exists r; (split; [done|]); unfold edge_from, edge_to in Hue;
      simpl in Hue; tauto.
Qed.

Lemma returned_graph_is_sound_sample :
  let G := graph_of (tomtom_gdf_to_nx_graph_2021 sample_frame_2021) in
  nodes G ≠ ∅ ∧ well_formed G ∧
  ∀ u, u ∈ nodes G →
       ∃ r, r ∈ GeoDataFrame.rows sample_frame_2021 ∧
            (u = Row2021.junction_id_from r ∨ u = Row2021.junction_id_to r).
Proof.
  apply (proj1 returned_graph_is_sound sample_frame_2021). by_evaluation.
Defined.

(** The reduction is idempotent: applied to a graph that a builder
    returned, lines 237 to 245 return that same graph, attributes
    included. *)
Theorem reduction_is_idempotent :
  (∀ gdf G, tomtom_gdf_to_nx_graph_2021 gdf = Ok G → largest_component G = Ok G) ∧
  (∀ gdf G, tomtom_gdf_to_nx_graph_2017 gdf = Ok G → largest_component G = Ok G).
Proof.
  split; intros gdf G.
  - intros (G' & HG' & ->)%builder_2021_inv.
    destruct (largest_component_returns _ _ (well_formed_built_graph_2021 gdf) HG')
      as (Hwf & Hsc & Hne & _).
    by apply largest_component_fixed.
  - intros (G' & HG' & ->)%builder_2017_inv.
    destruct (largest_component_returns _ _ (well_formed_built_graph_2017 gdf) HG')
      as (Hwf & Hsc & Hne & _).
    by apply largest_component_fixed.
Qed.

Lemma reduction_is_idempotent_sample :
  let G := graph_of (tomtom_gdf_to_nx_graph_2021 sample_frame_2021) in
  largest_component G = Ok G.
Proof.
  apply (proj1 reduction_is_idempotent sample_frame_2021). by_evaluation.
Defined.

(** ** Networks without circuit *)





(** ** The frames of the two [get_tomtom_gdf] functions *)

Lemma is_nan_fillna d x :
  PrimFloat.is_nan d = false → PrimFloat.is_nan (fillna d x) = false.
Proof.
  intros Hd. unfold fillna.
  destruct (PrimFloat.is_nan x) eqn:Hx; done.
Qed.

Section Frames.
Context `{Collaborators}.

Lemma get_tomtom_gdf_2021_inv con geofence xy log log' gdf :
  get_tomtom_gdf_2021 con geofence xy log = (log', Ok gdf) →
  ∃ c, default_crs (network_2021 con geofence)
         = {| GeoDataFrame.rows := GeoDataFrame.rows (network_2021 con geofence);
              GeoDataFrame.crs := Some c |} ∧
       GeoDataFrame.rows (network_2021 con geofence) ≠ [] ∧
       gdf = {| GeoDataFrame.rows :=
                  map (if xy then set_geom_2021 (pointwise (transform c XY_CRS))
                       else id)
                      (map add_columns_2021
                           (GeoDataFrame.rows (network_2021 con geofence)));
                GeoDataFrame.crs := Some (if xy then XY_CRS else c) |}.
Proof.
  unfold get_tomtom_gdf_2021, bind, from_postgis_2021, GeoDataFrame.empty.
  destruct (network_2021 con geofence) as [rows crs]. simpl.
  destruct rows as [|r rows]; [done|].
  destruct crs as [c|]; simpl; intros Hget.
  - exists c. split; [done|]. split; [done|].
    destruct xy; simpl in *.
    + unfold lift, to_crs in Hget. simpl in Hget. by inversion Hget.
    + unfold ret in Hget. inversion Hget. by rewrite map_id.
  - exists LATLON_CRS. split; [done|]. split; [done|].
    destruct xy; simpl in *.
    + unfold lift, to_crs in Hget. simpl in Hget. by inversion Hget.
    + unfold ret in Hget. inversion Hget. by rewrite map_id.
Qed.

Lemma get_tomtom_gdf_2017_inv con geofence xy log log' gdf :
  get_tomtom_gdf_2017 con geofence xy log = (log', Ok gdf) →
  ∃ c, default_crs (multinet_2017 con geofence)
         = {| GeoDataFrame.rows := GeoDataFrame.rows (multinet_2017 con geofence);
              GeoDataFrame.crs := Some c |} ∧
       GeoDataFrame.rows (multinet_2017 con geofence) ≠ [] ∧
       gdf = {| GeoDataFrame.rows :=
                  map (if xy then set_geom_2017 (pointwise (transform c XY_CRS))
                       else id)
                      (map fillna_2017
                         (map add_kilometers_2017
                            (filter usable_2017
                               (GeoDataFrame.rows (multinet_2017 con geofence)))));
                GeoDataFrame.crs := Some (if xy then XY_CRS else c) |}.
Proof.
  unfold get_tomtom_gdf_2017, bind, from_postgis_2017, GeoDataFrame.empty.
  destruct (multinet_2017 con geofence) as [rows crs]. simpl.
  destruct rows as [|r rows]; [done|].
  destruct crs as [c|]; simpl; intros Hget.
  - exists c. split; [done|]. split; [done|].
    rewrite <- filter_usable_add_kilometers.
    destruct xy; simpl in *.
    + unfold lift, to_crs in Hget. simpl in Hget. by inversion Hget.
    + unfold ret in Hget. inversion Hget. by rewrite map_id.
  - exists LATLON_CRS. split; [done|]. split; [done|].
    rewrite <- filter_usable_add_kilometers.
    destruct xy; simpl in *.
    + unfold lift, to_crs in Hget. simpl in Hget. by inversion Hget.
    + unfold ret in Hget. inversion Hget. by rewrite map_id.
Qed.

End Frames.

Section FrameInvariants.
Context `{Collaborators}.

(** The frame that [get_tomtom_gdf_2021] returns has the rows of the
    query, in their order, with their junctions, road ids and direction
    codes, and it has a crs, the projected one when [xy] is set. In each of
    its rows no speed is missing, the kilometres are the centimetres times
    0.00001, and the minutes of either direction are the kilometres over
    the speed of that direction, times 60. *)
Theorem frame_2021_is_normalised :
  ∀ con geofence xy log log' gdf,
    get_tomtom_gdf_2021 con geofence xy log = (log', Ok gdf) →
    map Row2021.junction_id_from (GeoDataFrame.rows gdf)
      = map Row2021.junction_id_from (GeoDataFrame.rows (network_2021 con geofence)) ∧
    map Row2021.junction_id_to (GeoDataFrame.rows gdf)
      = map Row2021.junction_id_to (GeoDataFrame.rows (network_2021 con geofence)) ∧
    map Row2021.netw_id (GeoDataFrame.rows gdf)
      = map Row2021.netw_id (GeoDataFrame.rows (network_2021 con geofence)) ∧
    map Row2021.simple_traffic_direction (GeoDataFrame.rows gdf)
      = map Row2021.simple_traffic_direction
            (GeoDataFrame.rows (network_2021 con geofence)) ∧
    GeoDataFrame.rows gdf ≠ [] ∧
    Forall (λ r,
              PrimFloat.is_nan (Row2021.speed_average_neg r) = false ∧
              PrimFloat.is_nan (Row2021.speed_average_pos r) = false ∧
              Row2021.kilometers r = (Row2021.centimeters r * 0.00001)%float ∧
              Row2021.neg_minutes r
                = ((Row2021.kilometers r / Row2021.speed_average_neg r) * 60)%float ∧
              Row2021.pos_minutes r
                = ((Row2021.kilometers r / Row2021.speed_average_pos r) * 60)%float)
           (GeoDataFrame.rows gdf) ∧
    ∃ c, GeoDataFrame.crs gdf = Some c ∧ (xy = true → c = XY_CRS).
Proof.
  intros con geofence xy log log' gdf
    (c & _ & Hrows & ->)%get_tomtom_gdf_2021_inv. simpl.
  assert (∀ {A} (col : Row2021.t → A),
            (∀ r f, col (set_geom_2021 f (add_columns_2021 r)) = col r) →
            (∀ r, col (add_columns_2021 r) = col r) →
            map col
              (map (if xy then set_geom_2021 (pointwise (transform c XY_CRS))
                    else id)
                 (map add_columns_2021 (GeoDataFrame.rows (network_2021 con geofence))))
            = map col (GeoDataFrame.rows (network_2021 con geofence))) as Hcol.
  { intros A col Hset Hadd. rewrite !map_map. apply map_ext. intros r.
    destruct xy; [apply Hset|apply Hadd]. }
  split; [by apply Hcol|]. split; [by apply Hcol|].
  split; [by apply Hcol|]. split; [by apply Hcol|].
  split.
  { destruct (GeoDataFrame.rows (network_2021 con geofence)); done. }
  split.
  - apply Forall_forall. intros r Hr.
    apply list_elem_of_fmap in Hr as (r1 & -> & Hr1).
    apply list_elem_of_fmap in Hr1 as (r0 & -> & _).
    assert (PrimFloat.is_nan 20 = false) as H20 by reflexivity.
    destruct xy; simpl; repeat split; by apply is_nan_fillna.
  - eexists. split; [done|]. by intros ->.
Qed.

(** The frame that [get_tomtom_gdf_2017] returns has, in their order, the
    rows of the query whose [rdcond] is below 2 and whose [frc] is below 8,
    and no other; none of its metres, minutes and kilometres is missing; and
    it has a crs, the projected one when [xy] is set. *)
Theorem frame_2017_is_normalised :
  ∀ con geofence xy log log' gdf,
    get_tomtom_gdf_2017 con geofence xy log = (log', Ok gdf) →
    map Row2017.id (GeoDataFrame.rows gdf)
      = map Row2017.id
          (filter usable_2017 (GeoDataFrame.rows (multinet_2017 con geofence))) ∧
    map Row2017.f_jnctid (GeoDataFrame.rows gdf)
      = map Row2017.f_jnctid
          (filter usable_2017 (GeoDataFrame.rows (multinet_2017 con geofence))) ∧
    map Row2017.t_jnctid (GeoDataFrame.rows gdf)
      = map Row2017.t_jnctid
          (filter usable_2017 (GeoDataFrame.rows (multinet_2017 con geofence))) ∧
    map Row2017.oneway (GeoDataFrame.rows gdf)
      = map Row2017.oneway
          (filter usable_2017 (GeoDataFrame.rows (multinet_2017 con geofence))) ∧
    Forall (λ r,
              (Row2017.rdcond r < 2)%Z ∧ (Row2017.frc r < 8)%Z ∧
              PrimFloat.is_nan (Row2017.meters r) = false ∧
              PrimFloat.is_nan (Row2017.minutes r) = false ∧
              PrimFloat.is_nan (Row2017.kilometers r) = false)
           (GeoDataFrame.rows gdf) ∧
    ∃ c, GeoDataFrame.crs gdf = Some c ∧ (xy = true → c = XY_CRS).
Proof.
  intros con geofence xy log log' gdf
    (c & _ & Hrows & ->)%get_tomtom_gdf_2017_inv. simpl.
  assert (∀ {A} (col : Row2017.t → A),
            (∀ r f, col (set_geom_2017 f (fillna_2017 (add_kilometers_2017 r)))
                      = col r) →
            (∀ r, col (fillna_2017 (add_kilometers_2017 r)) = col r) →
            map col
              (map (if xy then set_geom_2017 (pointwise (transform c XY_CRS))
                    else id)
                 (map fillna_2017
                    (map add_kilometers_2017
                       (filter usable_2017
                          (GeoDataFrame.rows (multinet_2017 con geofence))))))
            = map col (filter usable_2017
                         (GeoDataFrame.rows (multinet_2017 con geofence)))) as Hcol.
  { intros A col Hset Hadd. rewrite !map_map. apply map_ext. intros r.
    destruct xy; [apply Hset|apply Hadd]. }
  split; [by apply Hcol|]. split; [by apply Hcol|].
  split; [by apply Hcol|]. split; [by apply Hcol|].
  split.
  - apply Forall_forall. intros r Hr.
    apply list_elem_of_fmap in Hr as (r2 & -> & Hr2).
    apply list_elem_of_fmap in Hr2 as (r1 & -> & Hr1).
    apply list_elem_of_fmap in Hr1 as (r0 & -> & Hr0).
    apply list_elem_of_filter in Hr0 as [[Hrd Hfrc] _].
    destruct xy; simpl; repeat split; try done; by apply is_nan_fillna.
  - eexists. split; [done|]. by intros ->.
Qed.

End FrameInvariants.

Lemma frame_2021_is_normalised_sample :
  let gdf := {| GeoDataFrame.rows :=
                  map add_columns_2021 [road_12; road_23; road_31];
                GeoDataFrame.crs := Some LATLON_CRS |} in
  map Row2021.junction_id_from (GeoDataFrame.rows gdf) = [1; 2; 3]%Z ∧
  map Row2021.junction_id_to (GeoDataFrame.rows gdf) = [2; 3; 1]%Z ∧
  map Row2021.netw_id (GeoDataFrame.rows gdf)
    = [IntId 7; StrId "b8"; IntId 9] ∧
  map Row2021.simple_traffic_direction (GeoDataFrame.rows gdf) = [1; 2; 2]%Z ∧
  GeoDataFrame.rows gdf ≠ [] ∧
  Forall (λ r,
            PrimFloat.is_nan (Row2021.speed_average_neg r) = false ∧
            PrimFloat.is_nan (Row2021.speed_average_pos r) = false ∧
            Row2021.kilometers r = (Row2021.centimeters r * 0.00001)%float ∧
            Row2021.neg_minutes r
              = ((Row2021.kilometers r / Row2021.speed_average_neg r) * 60)%float ∧
            Row2021.pos_minutes r
              = ((Row2021.kilometers r / Row2021.speed_average_pos r) * 60)%float)
         (GeoDataFrame.rows gdf) ∧
  ∃ c, GeoDataFrame.crs gdf = Some c ∧ (false = true → c = EPSG 3857).
Proof.
  apply (@frame_2021_is_normalised web_mercator mixed_db fence_latlon false
           [] [select_network_2021 fence_latlon]).
  by_evaluation.
Defined.

Lemma frame_2017_is_normalised_sample :
  ∃ gdf,
    snd (@get_tomtom_gdf_2017 web_mercator mixed_db fence_latlon true []) = Ok gdf ∧
    map Row2017.id (GeoDataFrame.rows gdf) = [5; 8; 9]%Z ∧
    map Row2017.f_jnctid (GeoDataFrame.rows gdf) = [1; 2; 3]%Z ∧
    map Row2017.t_jnctid (GeoDataFrame.rows gdf) = [2; 3; 1]%Z ∧
    map Row2017.oneway (GeoDataFrame.rows gdf) = ["N"; "FT"; "TF"] ∧
    Forall (λ r,
              (Row2017.rdcond r < 2)%Z ∧ (Row2017.frc r < 8)%Z ∧
              PrimFloat.is_nan (Row2017.meters r) = false ∧
              PrimFloat.is_nan (Row2017.minutes r) = false ∧
              PrimFloat.is_nan (Row2017.kilometers r) = false)
           (GeoDataFrame.rows gdf) ∧
    ∃ c, GeoDataFrame.crs gdf = Some c ∧ (true = true → c = EPSG 3857).
Proof.
  destruct (@get_tomtom_gdf_2017 web_mercator mixed_db fence_latlon true [])
    as [log' [gdf|e]] eqn:Hget; [|by vm_compute in Hget].
  exists gdf. split; [done|].
  apply (@frame_2017_is_normalised web_mercator mixed_db fence_latlon true
           [] log' gdf Hget).
Defined.

(** ** The reader *)

Section ReaderComposition.
Context `{Collaborators}.

Lemma get_tomtom_gdf_2021_log con geofence xy log :
  fst (get_tomtom_gdf_2021 con geofence xy log)
    = log ++ [select_network_2021 geofence].
Proof.
  unfold get_tomtom_gdf_2021, bind, from_postgis_2021.
  destruct (GeoDataFrame.empty (network_2021 con geofence)); [done|].
  by destruct xy.
Qed.

Lemma get_tomtom_gdf_2017_log con geofence xy log :
  fst (get_tomtom_gdf_2017 con geofence xy log)
    = log ++ [select_multinet_2017 geofence].
Proof.
  unfold get_tomtom_gdf_2017, bind, from_postgis_2017.
  destruct (GeoDataFrame.empty (multinet_2017 con geofence)); [done|].
  by destruct xy.
Qed.

Lemma read_2021 con geofence xy log :
  Geofence.crs geofence = LATLON_CRS →
  read_tomtom_nxmap_from_sql con geofence (PyStr "2021") xy log
    = (log ++ [select_network_2021 geofence],
       (do gdf <- snd (get_tomtom_gdf_2021 con geofence xy log);
        do G <- tomtom_gdf_to_nx_graph_2021 gdf;
        Ok {| g := G |})%result).
Proof.
  intros Hcrs. unfold read_tomtom_nxmap_from_sql.
  rewrite bool_decide_eq_true_2 by done. simpl.
  pose proof (get_tomtom_gdf_2021_log con geofence xy log) as Hlog.
  unfold bind at 1 2.
  destruct (get_tomtom_gdf_2021 con geofence xy log) as [log' [gdf|e]];
    simpl in *; subst; [|done].
  unfold lift. by destruct (tomtom_gdf_to_nx_graph_2021 gdf).
Qed.

Lemma read_2017 con geofence xy log :
  Geofence.crs geofence = LATLON_CRS →
  read_tomtom_nxmap_from_sql con geofence (PyStr "2017") xy log
    = (log ++ [select_multinet_2017 geofence],
       (do gdf <- snd (get_tomtom_gdf_2017 con geofence xy log);
        do G <- tomtom_gdf_to_nx_graph_2017 gdf;
        Ok {| g := G |})%result).
Proof.
  intros Hcrs. unfold read_tomtom_nxmap_from_sql.
  rewrite bool_decide_eq_true_2 by done. simpl.
  pose proof (get_tomtom_gdf_2017_log con geofence xy log) as Hlog.
  unfold bind at 1 2.
  destruct (get_tomtom_gdf_2017 con geofence xy log) as [log' [gdf|e]];
    simpl in *; subst; [|done].
  unfold lift. by destruct (tomtom_gdf_to_nx_graph_2017 gdf).
Qed.

Lemma get_tomtom_gdf_2021_error con geofence xy log log' e :
  get_tomtom_gdf_2021 con geofence xy log = (log', Err e) →
  e = MapException no_links_msg.
Proof.
  unfold get_tomtom_gdf_2021, bind, from_postgis_2021, GeoDataFrame.empty.
  destruct (network_2021 con geofence) as [rows crs]. simpl.
  destruct rows as [|r rows]; [by intros [= _ <-]|].
  destruct xy, crs; by intros [= _ ?].
Qed.

Lemma get_tomtom_gdf_2017_error con geofence xy log log' e :
  get_tomtom_gdf_2017 con geofence xy log = (log', Err e) →
  e = MapException no_links_msg.
Proof.
  unfold get_tomtom_gdf_2017, bind, from_postgis_2017, GeoDataFrame.empty.
  destruct (multinet_2017 con geofence) as [rows crs]. simpl.
  destruct rows as [|r rows]; [by intros [= _ <-]|].
  destruct xy, crs; by intros [= _ ?].
Qed.

Lemma largest_component_error G e :
  largest_component G = Err e → e = ValueError max_empty_msg.
Proof.
  unfold largest_component. simpl.
  destruct (strongly_connected_components G); simpl; by intros [= <-].
Qed.

Lemma tomtom_gdf_to_nx_graph_2021_error gdf e :
  tomtom_gdf_to_nx_graph_2021 gdf = Err e → e = ValueError max_empty_msg.
Proof.
  unfold tomtom_gdf_to_nx_graph_2021.
  destruct (largest_component (built_graph_2021 gdf)) as [G|e'] eqn:HG;
    simpl; [done|].
  intros [= <-]. by eapply largest_component_error.
Qed.

Lemma tomtom_gdf_to_nx_graph_2017_error gdf e :
  tomtom_gdf_to_nx_graph_2017 gdf = Err e →
  e = ValueError max_empty_msg ∨ e = IndexError index_msg.
Proof.
  unfold tomtom_gdf_to_nx_graph_2017.
  destruct (traverse end_points_2017 (GeoDataFrame.rows gdf)) as [ends|e'] eqn:Ht;
    simpl.
  - destruct (largest_component (built_graph_2017 gdf)) as [G|e'] eqn:HG;
      simpl; [done|].
    intros [= <-]. left. by eapply largest_component_error.
  - intros [= <-]. right. by eapply traverse_end_points_2017_error.
Qed.

(** Each [get_tomtom_gdf] function sends one query, the one of its
    table for the given geofence, whether it then raises or not. The reader
    sends at most one query: none when it raises a [TypeError], and
    otherwise the query of the table that goes with the vintage, whatever
    happens afterwards. *)
Theorem one_query_per_call :
  (∀ con geofence xy log,
     fst (get_tomtom_gdf_2021 con geofence xy log)
       = log ++ [select_network_2021 geofence]) ∧
  (∀ con geofence xy log,
     fst (get_tomtom_gdf_2017 con geofence xy log)
       = log ++ [select_multinet_2017 geofence]) ∧
  (∀ con geofence vintage xy log,
     match snd (read_tomtom_nxmap_from_sql con geofence vintage xy log) with
     | Err (TypeError _) =>
         fst (read_tomtom_nxmap_from_sql con geofence vintage xy log) = log
     | _ =>
         (vintage = PyStr "2021" ∧
          fst (read_tomtom_nxmap_from_sql con geofence vintage xy log)
            = log ++ [select_network_2021 geofence]) ∨
         (vintage = PyStr "2017" ∧
          fst (read_tomtom_nxmap_from_sql con geofence vintage xy log)
            = log ++ [select_multinet_2017 geofence])
     end).
Proof.
  split; [exact get_tomtom_gdf_2021_log|].
  split; [exact get_tomtom_gdf_2017_log|].
  intros con geofence vintage xy log.
  destruct (decide (Geofence.crs geofence = LATLON_CRS)) as [Hcrs|Hcrs].
  - destruct (decide (vintage = PyStr "2021")) as [->|H21].
    { rewrite (read_2021 _ _ _ _ Hcrs). simpl.
      destruct (get_tomtom_gdf_2021 con geofence xy log) as [log' [gdf|e]] eqn:Hget;
        simpl.
      - destruct (tomtom_gdf_to_nx_graph_2021 gdf) as [G|e] eqn:HG; simpl;
          [by left|].
        apply tomtom_gdf_to_nx_graph_2021_error in HG as ->. by left.
      - apply get_tomtom_gdf_2021_error in Hget as ->. by left. }
    destruct (decide (vintage = PyStr "2017")) as [->|H17].
    { rewrite (read_2017 _ _ _ _ Hcrs). simpl.
      destruct (get_tomtom_gdf_2017 con geofence xy log) as [log' [gdf|e]] eqn:Hget;
        simpl.
      - destruct (tomtom_gdf_to_nx_graph_2017 gdf) as [G|e] eqn:HG; simpl;
          [by right|].
        apply tomtom_gdf_to_nx_graph_2017_error in HG as [->| ->]; by right.
      - apply get_tomtom_gdf_2017_error in Hget as ->. by right. }
    unfold read_tomtom_nxmap_from_sql.
    rewrite bool_decide_eq_true_2 by done. simpl.
    by rewrite (py_eq_str_false _ _ H21), (py_eq_str_false _ _ H17).
  - unfold read_tomtom_nxmap_from_sql.
    by rewrite bool_decide_eq_false_2.
Qed.

(** For a geofence in EPSG:4326 and a supported vintage, the reader
    returns, wrapped in an [NxMap], the graph that the builder of the
    vintage makes of the frame of that vintage, and it passes on unchanged
    the exception of whichever of the two raises. In particular an empty
    answer of the database is a [MapException] of the reader. *)
Theorem reader_is_get_then_build :
  (∀ con geofence xy log,
     Geofence.crs geofence = LATLON_CRS →
     snd (read_tomtom_nxmap_from_sql con geofence (PyStr "2021") xy log)
       = (do gdf <- snd (get_tomtom_gdf_2021 con geofence xy log);
          do G <- tomtom_gdf_to_nx_graph_2021 gdf;
          Ok {| g := G |})%result) ∧
  (∀ con geofence xy log,
     Geofence.crs geofence = LATLON_CRS →
     snd (read_tomtom_nxmap_from_sql con geofence (PyStr "2017") xy log)
       = (do gdf <- snd (get_tomtom_gdf_2017 con geofence xy log);
          do G <- tomtom_gdf_to_nx_graph_2017 gdf;
          Ok {| g := G |})%result) ∧
  (∀ con geofence xy log,
     Geofence.crs geofence = LATLON_CRS →
     GeoDataFrame.rows (network_2021 con geofence) = [] →
     snd (read_tomtom_nxmap_from_sql con geofence (PyStr "2021") xy log)
       = Err (MapException no_links_msg)) ∧
  (∀ con geofence xy log,
     Geofence.crs geofence = LATLON_CRS →
     GeoDataFrame.rows (multinet_2017 con geofence) = [] →
     snd (read_tomtom_nxmap_from_sql con geofence (PyStr "2017") xy log)
       = Err (MapException no_links_msg)).
Proof.
  split; [|split; [|split]].
  - intros con geofence xy log Hcrs. by rewrite (read_2021 _ _ _ _ Hcrs).
  - intros con geofence xy log Hcrs. by rewrite (read_2017 _ _ _ _ Hcrs).
  - intros con geofence xy log Hcrs Hrows. rewrite (read_2021 _ _ _ _ Hcrs).
    simpl. unfold get_tomtom_gdf_2021, bind, from_postgis_2021,
      GeoDataFrame.empty. by rewrite Hrows.
  - intros con geofence xy log Hcrs Hrows. rewrite (read_2017 _ _ _ _ Hcrs).
    simpl. unfold get_tomtom_gdf_2017, bind, from_postgis_2017,
      GeoDataFrame.empty. by rewrite Hrows.
Qed.

End ReaderComposition.

Lemma reader_is_get_then_build_sample :
  snd (@read_tomtom_nxmap_from_sql web_mercator mixed_db fence_latlon
         (PyStr "2021") true [])
    = (do gdf <- snd (@get_tomtom_gdf_2021 web_mercator mixed_db fence_latlon true []);
       do G <- tomtom_gdf_to_nx_graph_2021 gdf;
       Ok {| g := G |})%result ∧
  snd (@read_tomtom_nxmap_from_sql web_mercator mixed_db fence_latlon
         (PyStr "2017") false [])
    = (do gdf <- snd (@get_tomtom_gdf_2017 web_mercator mixed_db fence_latlon false []);
       do G <- tomtom_gdf_to_nx_graph_2017 gdf;
       Ok {| g := G |})%result ∧
  snd (@read_tomtom_nxmap_from_sql web_mercator empty_db fence_latlon
         (PyStr "2021") true [])
    = Err (MapException no_links_msg) ∧
  snd (@read_tomtom_nxmap_from_sql web_mercator empty_db fence_latlon
         (PyStr "2017") true [])
    = Err (MapException no_links_msg).
Proof.
  pose proof (@reader_is_get_then_build web_mercator) as (H21 & H17 & He21 & He17).
  split; [apply H21; compute_done|].
  split; [apply H17; compute_done|].
  split; [apply He21; [compute_done|by_evaluation]|].
  apply He17; [compute_done|by_evaluation].
Defined.

(** ** The exceptions that can be raised *)

Section Exceptions.
Context `{Collaborators}.


End Exceptions.


(** ** What the [xy] flag changes *)

Lemma filter_map_invariant {A} (P : A → Prop) `{∀ x, Decision (P x)}
    (h : A → A) (l : list A) :
  (∀ x, P (h x) ↔ P x) → filter P (map h l) = map h (filter P l).
Proof.
  intros HP. induction l as [|x l IH]; [done|]. simpl.
  rewrite !filter_cons, IH.
  destruct (decide (P x)) as [Hx|Hx].
  - by rewrite decide_True by (by apply HP).
  - by rewrite decide_False by (by rewrite HP).
Qed.

Lemma reversed_pointwise h g :
  reversed_LineString (pointwise h g) = pointwise h (reversed_LineString g).
Proof.
  unfold reversed_LineString, pointwise. simpl. f_equal.
  symmetry. apply (fmap_reverse h).
Qed.

Lemma expand_2021_pointwise h rows crs crs' :
  expand_2021 {| GeoDataFrame.rows := map (set_geom_2021 (pointwise h)) rows;
                 GeoDataFrame.crs := crs' |}
    = map (map_edge (pointwise h))
          (expand_2021 {| GeoDataFrame.rows := rows; GeoDataFrame.crs := crs |}).
Proof.
  unfold expand_2021, twoway_edges_tf_2021, twoway_edges_ft_2021,
    oneway_edges_ft_2021, oneway_edges_tf_2021, twoway_2021, oneway_ft_2021,
    oneway_tf_2021. simpl.
  rewrite !filter_map_invariant by done.
  rewrite !map_app, !map_map.
  assert (∀ r, edge_tf_2021 (set_geom_2021 (pointwise h) r)
                 = map_edge (pointwise h) (edge_tf_2021 r)) as Htf.
  { intros r. unfold edge_tf_2021, map_edge, map_edge_geom. simpl.
    by rewrite reversed_pointwise. }
  assert (∀ r, edge_ft_2021 (set_geom_2021 (pointwise h) r)
                 = map_edge (pointwise h) (edge_ft_2021 r)) as Hft by done.
  by rewrite !(map_ext _ _ Htf), !(map_ext _ _ Hft).
Qed.

Lemma expand_2017_pointwise h rows crs crs' :
  expand_2017 {| GeoDataFrame.rows := map (set_geom_2017 (pointwise h)) rows;
                 GeoDataFrame.crs := crs' |}
    = map (map_edge (pointwise h))
          (expand_2017 {| GeoDataFrame.rows := rows; GeoDataFrame.crs := crs |}).
Proof.
  unfold expand_2017, twoway_edges_tf_2017, twoway_edges_ft_2017,
    oneway_edges_ft_2017, oneway_edges_tf_2017, twoway_2017, oneway_ft_2017,
    oneway_tf_2017. simpl.
  rewrite !filter_map_invariant by done.
  rewrite !map_app, !map_map.
  assert (∀ r, edge_tf_2017 (set_geom_2017 (pointwise h) r)
                 = map_edge (pointwise h) (edge_tf_2017 r)) as Htf.
  { intros r. unfold edge_tf_2017, map_edge, map_edge_geom. simpl.
    by rewrite reversed_pointwise. }
  assert (∀ r, edge_ft_2017 (set_geom_2017 (pointwise h) r)
                 = map_edge (pointwise h) (edge_ft_2017 r)) as Hft by done.
  by rewrite !(map_ext _ _ Htf), !(map_ext _ _ Hft).
Qed.

Lemma add_edges_from_map_geom f G ebunch :
  add_edges_from (map_graph_geom f G) (map (map_edge f) ebunch)
    = map_graph_geom f (add_edges_from G ebunch).
Proof.
  unfold add_edges_from. revert G.
  induction ebunch as [|e ebunch IH]; intros G; simpl; [done|].
  rewrite <- IH. f_equal.
  unfold add_edge, map_graph_geom, map_edge, edge_from, edge_to, edge_key,
    edge_data. simpl. f_equal. by rewrite fmap_insert.
Qed.

Lemma arcs_map_geom f G : arcs (map_graph_geom f G) = arcs G.
Proof. unfold arcs, map_graph_geom. simpl. by rewrite dom_fmap_L. Qed.

Lemma closure_same_arcs n G1 G2 R :
  arcs G1 = arcs G2 → closure n G1 R = closure n G2 R.
Proof.
  intros Ha. revert R. induction n as [|n IH]; intros R; simpl; [done|].
  unfold successors. rewrite Ha. case_decide; [done|]. apply IH.
Qed.

Lemma component_of_same_arcs G1 G2 u :
  arcs G1 = arcs G2 → component_of G1 u = component_of G2 u.
Proof.
  intros Ha. unfold component_of, descendants. rewrite Ha.
  rewrite (closure_same_arcs _ G1 G2 _ Ha).
  apply set_eq. intros v. rewrite !elem_of_filter.
  by rewrite (closure_same_arcs _ G1 G2 _ Ha).
Qed.

Lemma components_from_same_arcs G1 G2 todo seen :
  arcs G1 = arcs G2 →
  components_from G1 todo seen = components_from G2 todo seen.
Proof.
  intros Ha. revert seen. induction todo as [|u todo IH]; intros seen; simpl;
    [done|].
  case_decide; [apply IH|].
  by rewrite (component_of_same_arcs G1 G2 u Ha), IH.
Qed.

Lemma subgraph_map_geom f G c :
  subgraph (map_graph_geom f G) c = map_graph_geom f (subgraph G c).
Proof.
  unfold subgraph, map_graph_geom. simpl. f_equal.
  by rewrite map_filter_fmap.
Qed.

Lemma largest_component_map_geom f G :
  largest_component (map_graph_geom f G) =
    match largest_component G with
    | Ok G' => Ok (map_graph_geom f G')
    | Err e => Err e
    end.
Proof.
  unfold largest_component, strongly_connected_components. simpl.
  rewrite (components_from_same_arcs _ G _ _ (arcs_map_geom f G)).
  destruct (max_key_len _) as [c|e]; simpl; [|done].
  by rewrite subgraph_map_geom.
Qed.

Lemma set_graph_attributes_twice c1 c2 G :
  set_graph_attributes c2 (set_graph_attributes c1 G) = set_graph_attributes c2 G.
Proof.
  unfold set_graph_attributes. simpl. f_equal.
  apply map_eq. intros key.
  destruct (decide ("road_id_key" = key)) as [<-|?]; [by simplify_map_eq|].
  destruct (decide ("geometry_key" = key)) as [<-|?]; [by simplify_map_eq|].
  destruct (decide ("time_weight" = key)) as [<-|?]; [by simplify_map_eq|].
  destruct (decide ("distance_weight" = key)) as [<-|?]; [by simplify_map_eq|].
  destruct (decide ("crs" = key)) as [<-|?]; by simplify_map_eq.
Qed.

Lemma builder_2021_pointwise h rows crs crs' :
  tomtom_gdf_to_nx_graph_2021
    {| GeoDataFrame.rows := map (set_geom_2021 (pointwise h)) rows;
       GeoDataFrame.crs := crs' |}
  = match tomtom_gdf_to_nx_graph_2021
            {| GeoDataFrame.rows := rows; GeoDataFrame.crs := crs |} with
    | Ok G => Ok (with_geometries (pointwise h) crs' G)
    | Err e => Err e
    end.
Proof.
  unfold tomtom_gdf_to_nx_graph_2021, with_geometries.
  rewrite !built_graph_2021_expand, (expand_2021_pointwise h rows crs crs').
  change empty_graph with (map_graph_geom (pointwise h) empty_graph) at 1.
  rewrite add_edges_from_map_geom, largest_component_map_geom.
  destruct (largest_component _) as [G|e]; simpl; [|done].
  f_equal. symmetry.
  apply (set_graph_attributes_twice crs crs' (map_graph_geom (pointwise h) G)).
Qed.

Lemma end_points_2017_pointwise h r :
  match end_points_2017 (set_geom_2017 (pointwise h) r) with
  | Ok _ => is_Ok (end_points_2017 r)
  | Err e => end_points_2017 r = Err e
  end.
Proof.
  unfold end_points_2017. simpl.
  destruct (coords (Row2017.wkb_geometry r)) as [|c cs] eqn:Hc; simpl; [done|].
  destruct (last_is_Some (c :: cs)) as [_ [cn Hcn]]; [done|].
  destruct (last_is_Some (h c :: map h cs)) as [_ [cn' Hcn']]; [done|].
  rewrite Hcn, Hcn'. by eexists.
Qed.

Lemma traverse_end_points_2017_pointwise h rows :
  match traverse end_points_2017 (map (set_geom_2017 (pointwise h)) rows) with
  | Ok _ => is_Ok (traverse end_points_2017 rows)
  | Err e => traverse end_points_2017 rows = Err e
  end.
Proof.
  induction rows as [|r rows IH]; simpl; [by eexists|].
  pose proof (end_points_2017_pointwise h r) as Hr.
  destruct (end_points_2017 (set_geom_2017 (pointwise h) r)) as [ends1|e1];
    simpl.
  - destruct Hr as [ends1' ->]. simpl.
    destruct (traverse end_points_2017 (map (set_geom_2017 (pointwise h)) rows))
      as [ends|e]; simpl.
    + destruct IH as [ends' ->]. simpl. by eexists.
    + by rewrite IH.
  - by rewrite Hr.
Qed.

Lemma builder_2017_pointwise h rows crs crs' :
  tomtom_gdf_to_nx_graph_2017
    {| GeoDataFrame.rows := map (set_geom_2017 (pointwise h)) rows;
       GeoDataFrame.crs := crs' |}
  = match tomtom_gdf_to_nx_graph_2017
            {| GeoDataFrame.rows := rows; GeoDataFrame.crs := crs |} with
    | Ok G => Ok (with_geometries (pointwise h) crs' G)
    | Err e => Err e
    end.
Proof.
  unfold tomtom_gdf_to_nx_graph_2017, with_geometries. simpl.
  pose proof (traverse_end_points_2017_pointwise h rows) as Ht.
  destruct (traverse end_points_2017 (map (set_geom_2017 (pointwise h)) rows))
    as [ends|e]; simpl.
  - destruct Ht as [ends' ->]. simpl.
    rewrite !built_graph_2017_expand, (expand_2017_pointwise h rows crs crs').
    change empty_graph with (map_graph_geom (pointwise h) empty_graph) at 1.
    rewrite add_edges_from_map_geom, largest_component_map_geom.
    destruct (largest_component _) as [G|e]; simpl; [|done].
    f_equal. symmetry.
    apply (set_graph_attributes_twice crs crs' (map_graph_geom (pointwise h) G)).
  - by rewrite Ht.
Qed.

Section Projection.
Context `{Collaborators}.

Lemma get_tomtom_gdf_2021_xy con geofence log :
  (snd (get_tomtom_gdf_2021 con geofence false log) = Err (MapException no_links_msg) ∧
   snd (get_tomtom_gdf_2021 con geofence true log) = Err (MapException no_links_msg)) ∨
  ∃ c rows,
    snd (get_tomtom_gdf_2021 con geofence false log)
      = Ok {| GeoDataFrame.rows := rows; GeoDataFrame.crs := Some c |} ∧
    snd (get_tomtom_gdf_2021 con geofence true log)
      = Ok {| GeoDataFrame.rows :=
                map (set_geom_2021 (pointwise (transform c XY_CRS))) rows;
              GeoDataFrame.crs := Some XY_CRS |}.
Proof.
  unfold get_tomtom_gdf_2021, bind, from_postgis_2021, GeoDataFrame.empty.
  destruct (network_2021 con geofence) as [rows crs]. simpl.
  destruct rows as [|r rows]; [by left|]. right.
  destruct crs as [c|]; simpl.
  - by exists c, (map add_columns_2021 (r :: rows)).
  - by exists LATLON_CRS, (map add_columns_2021 (r :: rows)).
Qed.

Lemma get_tomtom_gdf_2017_xy con geofence log :
  (snd (get_tomtom_gdf_2017 con geofence false log) = Err (MapException no_links_msg) ∧
   snd (get_tomtom_gdf_2017 con geofence true log) = Err (MapException no_links_msg)) ∨
  ∃ c rows,
    snd (get_tomtom_gdf_2017 con geofence false log)
      = Ok {| GeoDataFrame.rows := rows; GeoDataFrame.crs := Some c |} ∧
    snd (get_tomtom_gdf_2017 con geofence true log)
      = Ok {| GeoDataFrame.rows :=
                map (set_geom_2017 (pointwise (transform c XY_CRS))) rows;
              GeoDataFrame.crs := Some XY_CRS |}.
Proof.
  unfold get_tomtom_gdf_2017, bind, from_postgis_2017, GeoDataFrame.empty.
  destruct (multinet_2017 con geofence) as [rows crs]. simpl.
  destruct rows as [|r rows]; [by left|]. right.
  destruct crs as [c|]; simpl.
  - by eexists c, _.
  - by eexists LATLON_CRS, _.
Qed.

(** The [xy] flag changes the geometries and the coordinate descriptor
    and nothing else. A builder given a frame whose geometries went through
    a coordinate map returns the graph of the frame it would have been given
    otherwise, with the geometry of each edge gone through that map: the
    same junctions, the same edges under the same keys, the same kilometres,
    minutes and road ids, and the same exception if there is one. So the
    reader with [xy] set returns the graph of the reader without it, with
    the geometries reprojected from the crs of the frame and the projected
    crs as descriptor, after the same queries. *)
Theorem xy_changes_geometries_only :
  (∀ h rows crs crs',
     tomtom_gdf_to_nx_graph_2021
       {| GeoDataFrame.rows := map (set_geom_2021 (pointwise h)) rows;
          GeoDataFrame.crs := crs' |}
     = match tomtom_gdf_to_nx_graph_2021
               {| GeoDataFrame.rows := rows; GeoDataFrame.crs := crs |} with
       | Ok G => Ok (with_geometries (pointwise h) crs' G)
       | Err e => Err e
       end) ∧
  (∀ h rows crs crs',
     tomtom_gdf_to_nx_graph_2017
       {| GeoDataFrame.rows := map (set_geom_2017 (pointwise h)) rows;
          GeoDataFrame.crs := crs' |}
     = match tomtom_gdf_to_nx_graph_2017
               {| GeoDataFrame.rows := rows; GeoDataFrame.crs := crs |} with
       | Ok G => Ok (with_geometries (pointwise h) crs' G)
       | Err e => Err e
       end) ∧
  (∀ f crs G,
     nodes (with_geometries f crs G) = nodes G ∧
     ∀ key, edges (with_geometries f crs G) !! key
              = map_edge_geom f <$> edges G !! key) ∧
  (∀ con geofence vintage log,
     ∃ c,
       read_tomtom_nxmap_from_sql con geofence vintage true log
       = (fst (read_tomtom_nxmap_from_sql con geofence vintage false log),
          match snd (read_tomtom_nxmap_from_sql con geofence vintage false log) with
          | Ok m =>
              Ok {| g := with_geometries (pointwise (transform c XY_CRS))
                           (Some XY_CRS) (g m) |}
          | Err e => Err e
          end)).
Proof.
  split; [exact builder_2021_pointwise|].
  split; [exact builder_2017_pointwise|].
  split.
  { intros f crs G. split; [done|]. intros key.
    unfold with_geometries. simpl. apply lookup_fmap. }
  intros con geofence vintage log.
  destruct (decide (Geofence.crs geofence = LATLON_CRS)) as [Hcrs|Hcrs].
  - destruct (decide (vintage = PyStr "2021")) as [->|H21].
    { rewrite !(read_2021 _ _ _ _ Hcrs). simpl.
      destruct (get_tomtom_gdf_2021_xy con geofence log)
        as [[-> ->]|(c & rows & -> & ->)].
      - by exists LATLON_CRS.
      - exists c. simpl.
        rewrite (builder_2021_pointwise _ rows (Some c) (Some XY_CRS)).
        by destruct (tomtom_gdf_to_nx_graph_2021 _). }
    destruct (decide (vintage = PyStr "2017")) as [->|H17].
    { rewrite !(read_2017 _ _ _ _ Hcrs). simpl.
      destruct (get_tomtom_gdf_2017_xy con geofence log)
        as [[-> ->]|(c & rows & -> & ->)].
      - by exists LATLON_CRS.
      - exists c. simpl.
        rewrite (builder_2017_pointwise _ rows (Some c) (Some XY_CRS)).
        by destruct (tomtom_gdf_to_nx_graph_2017 _). }
    exists LATLON_CRS. unfold read_tomtom_nxmap_from_sql.
    rewrite bool_decide_eq_true_2 by done. simpl.
    by rewrite (py_eq_str_false _ _ H21), (py_eq_str_false _ _ H17).
  - exists LATLON_CRS. unfold read_tomtom_nxmap_from_sql.
    by rewrite bool_decide_eq_false_2.
Qed.

End Projection.

(** ** The edges of the returned graph *)

Lemma lookup_add_edges_from_empty ebunch key d :
  edges (add_edges_from empty_graph ebunch) !! key = Some d →
  (key, d) ∈ ebunch.
Proof.
  rewrite edges_add_edges_from. simpl. rewrite (right_id_L ∅ (∪)).
  intros Hin%elem_of_list_to_map_2. by rewrite elem_of_reverse in Hin.
Qed.

Lemma lookup_largest_component G G' key d :
  largest_component G = Ok G' → edges G' !! key = Some d →
  edges G !! key = Some d.
Proof.
  intros (c & _ & _ & ->)%largest_component_inv. simpl.
  by intros [? _]%map_lookup_filter_Some.
Qed.

(** Every edge of a returned graph is an edge of one row of the frame,
    with the attributes the builder gave it. In a 2021 graph the key and
    the road id are the [netw_id] of the row; the edge runs either forward
    with the positive minutes and the geometry of the row, or backward with
    the negative minutes and the reversed geometry. In a 2017 graph the key
    is the id of the row for a forward edge and its negation for a backward
    edge, the road id is the decimal writing of the key, and both directions
    have the minutes of the row. *)
Theorem returned_edges_come_from_rows :
  (∀ gdf G u v k d,
     tomtom_gdf_to_nx_graph_2021 gdf = Ok G →
     edges G !! (u, v, k) = Some d →
     ∃ r, r ∈ GeoDataFrame.rows gdf ∧
          k = Row2021.netw_id r ∧
          EdgeData.road_id d = Row2021.netw_id r ∧
          EdgeData.kilometers d = Row2021.kilometers r ∧
          ((u = Row2021.junction_id_from r ∧ v = Row2021.junction_id_to r ∧
            EdgeData.minutes d = Row2021.pos_minutes r ∧
            EdgeData.geom d = Row2021.geom r ∧
            Row2021.simple_traffic_direction r ∈ [1; 2; 9]%Z) ∨
           (u = Row2021.junction_id_to r ∧ v = Row2021.junction_id_from r ∧
            EdgeData.minutes d = Row2021.neg_minutes r ∧
            EdgeData.geom d = reversed_LineString (Row2021.geom r) ∧
            Row2021.simple_traffic_direction r ∈ [1; 3; 9]%Z))) ∧
  (∀ gdf G u v k d,
     tomtom_gdf_to_nx_graph_2017 gdf = Ok G →
     edges G !! (u, v, k) = Some d →
     ∃ r, r ∈ GeoDataFrame.rows gdf ∧
          EdgeData.kilometers d = Row2017.kilometers r ∧
          EdgeData.minutes d = Row2017.minutes r ∧
          ((u = Row2017.f_jnctid r ∧ v = Row2017.t_jnctid r ∧
            k = IntId (Row2017.id r) ∧
            EdgeData.road_id d = StrId (str (Row2017.id r)) ∧
            EdgeData.geom d = Row2017.wkb_geometry r ∧
            Row2017.oneway r ≠ "TF") ∨
           (u = Row2017.t_jnctid r ∧ v = Row2017.f_jnctid r ∧
            k = IntId (- Row2017.id r) ∧
            EdgeData.road_id d = StrId (str (- Row2017.id r)) ∧
            EdgeData.geom d = reversed_LineString (Row2017.wkb_geometry r) ∧
            Row2017.oneway r ≠ "FT"))).
Proof.
  split; intros gdf G u v k d.
  - intros (G' & HG' & ->)%builder_2021_inv. simpl.
    intros Hd%(lookup_largest_component _ _ _ _ HG').
    rewrite built_graph_2021_expand in Hd.
    apply lookup_add_edges_from_empty, elem_of_expand_2021 in Hd
      as (r & Hr & [[Heq Hcode]|[Heq Hcode]]);
      exists r; (split; [done|]); inversion Heq; subst; simpl; tauto.
  - intros (G' & HG' & ->)%builder_2017_inv. simpl.
    intros Hd%(lookup_largest_component _ _ _ _ HG').
    rewrite built_graph_2017_expand in Hd.
    apply lookup_add_edges_from_empty, elem_of_expand_2017 in Hd
      as (r & Hr & [[Heq Hcode]|[Heq Hcode]]);
      exists r; (split; [done|]); inversion Heq; subst; simpl; tauto.
Qed.

Lemma returned_edges_come_from_rows_sample :
  let d := {| EdgeData.kilometers := 1;
              EdgeData.minutes := 4;
              EdgeData.geom := {| coords := [(1, 0); (0, 0)]%float |};
              EdgeData.road_id := IntId 7 |} in
  ∃ r, r ∈ GeoDataFrame.rows sample_frame_2021 ∧
       IntId 7 = Row2021.netw_id r ∧
       EdgeData.road_id d = Row2021.netw_id r ∧
       EdgeData.kilometers d = Row2021.kilometers r ∧
       ((2%Z = Row2021.junction_id_from r ∧ 1%Z = Row2021.junction_id_to r ∧
         EdgeData.minutes d = Row2021.pos_minutes r ∧
         EdgeData.geom d = Row2021.geom r ∧
         Row2021.simple_traffic_direction r ∈ [1; 2; 9]%Z) ∨
        (2%Z = Row2021.junction_id_to r ∧ 1%Z = Row2021.junction_id_from r ∧
         EdgeData.minutes d = Row2021.neg_minutes r ∧
         EdgeData.geom d = reversed_LineString (Row2021.geom r) ∧
         Row2021.simple_traffic_direction r ∈ [1; 3; 9]%Z)).
Proof.
  intros d.
  apply (proj1 returned_edges_come_from_rows sample_frame_2021
           (graph_of (tomtom_gdf_to_nx_graph_2021 sample_frame_2021))
           2%Z 1%Z (IntId 7) d); by_evaluation.
Defined.

(** ** Roads from a junction to itself *)

Lemma largest_component_one_node G w :
  well_formed G → nodes G = {[w]} → largest_component G = Ok G.
Proof.
  intros Hwf Hn. apply largest_component_fixed; [done| |].
  - intros u v. rewrite Hn. intros ->%elem_of_singleton ->%elem_of_singleton.
    apply rtc_refl.
  - rewrite Hn. apply non_empty_singleton_L.
Qed.

(** A two-way road whose two ends are the same junction expands to two
    edges with the same endpoints. In the 2021 variant they also have the
    same key, so the graph keeps one edge for the road, the forward one,
    which is added last: the negative minutes and the reversed geometry are
    lost. In the 2017 variant the two keys differ when the id is not 0, and
    the graph keeps both edges. *)
Theorem loop_road_edges :
  (∀ r crs,
     Row2021.simple_traffic_direction r ∈ [1; 9]%Z →
     Row2021.junction_id_from r = Row2021.junction_id_to r →
     tomtom_gdf_to_nx_graph_2021
       {| GeoDataFrame.rows := [r]; GeoDataFrame.crs := crs |}
     = Ok (set_graph_attributes crs
             {| graph := ∅;
                nodes := {[Row2021.junction_id_from r]};
                edges := {[ (Row2021.junction_id_from r,
                             Row2021.junction_id_from r,
                             Row2021.netw_id r)
                            := edge_data (edge_ft_2021 r) ]} |})) ∧
  (∀ r crs G,
     Row2017.oneway r ≠ "FT" → Row2017.oneway r ≠ "TF" →
     Row2017.f_jnctid r = Row2017.t_jnctid r →
     Row2017.id r ≠ 0%Z →
     tomtom_gdf_to_nx_graph_2017
       {| GeoDataFrame.rows := [r]; GeoDataFrame.crs := crs |} = Ok G →
     nodes G = {[Row2017.f_jnctid r]} ∧
     edges G = {[ (Row2017.f_jnctid r, Row2017.f_jnctid r, IntId (Row2017.id r))
                    := edge_data (edge_ft_2017 r);
                  (Row2017.f_jnctid r, Row2017.f_jnctid r, IntId (- Row2017.id r))
                    := edge_data (edge_tf_2017 r) ]} ∧
     size (edges G) = 2).
Proof.
  split.
  - intros r crs Hcode Hloop.
    unfold tomtom_gdf_to_nx_graph_2021.
    assert (built_graph_2021 {| GeoDataFrame.rows := [r]; GeoDataFrame.crs := crs |}
            = {| graph := ∅;
                 nodes := {[Row2021.junction_id_from r]};
                 edges := {[ (Row2021.junction_id_from r,
                              Row2021.junction_id_from r,
                              Row2021.netw_id r)
                             := edge_data (edge_ft_2021 r) ]} |}) as ->.
    { rewrite built_graph_2021_expand, expand_2021_one, decide_True by done.
      unfold add_edges_from, add_edge, edge_from, edge_to, edge_key. simpl.
      rewrite <- Hloop. f_equal.
      - set_solver.
      - rewrite insert_insert_eq. apply insert_empty. }
    rewrite (largest_component_one_node _ (Row2021.junction_id_from r)); [done| |done].
    intros u v k [d Hd]. simpl in *.
    apply lookup_singleton_Some in Hd as [[= <- <- <-] _]. set_solver.
  - intros r crs G Hft Htf Hloop Hid.
    intros (G' & HG' & ->)%builder_2017_inv. simpl.
    assert (built_graph_2017 {| GeoDataFrame.rows := [r]; GeoDataFrame.crs := crs |}
            = {| graph := ∅;
                 nodes := {[Row2017.f_jnctid r]};
                 edges := {[ (Row2017.f_jnctid r, Row2017.f_jnctid r,
                              IntId (Row2017.id r))
                               := edge_data (edge_ft_2017 r);
                             (Row2017.f_jnctid r, Row2017.f_jnctid r,
                              IntId (- Row2017.id r))
                               := edge_data (edge_tf_2017 r) ]} |}) as Hb.
    { rewrite built_graph_2017_expand, expand_2017_one, !decide_False by done.
      unfold add_edges_from, add_edge, edge_from, edge_to, edge_key. simpl.
      rewrite <- Hloop. f_equal. set_solver. }
    rewrite Hb in HG'.
    rewrite (largest_component_one_node _ (Row2017.f_jnctid r)) in HG'.
    + inversion HG'; subst. simpl. split; [done|]. split; [done|].
      rewrite map_size_insert_None, map_size_singleton; [done|].
      apply lookup_singleton_ne. intros [= Heq]. lia.
    + rewrite <- Hb. apply well_formed_built_graph_2017.
    + done.
Qed.

Lemma loop_road_edges_sample :
  tomtom_gdf_to_nx_graph_2021 (frame_2021 [road_loop])
    = Ok (set_graph_attributes (Some LATLON_CRS)
            {| graph := ∅;
               nodes := {[4%Z]};
               edges := {[ (4%Z, 4%Z, IntId 11)
                           := edge_data (edge_ft_2021 road_loop) ]} |}) ∧
  (let G := graph_of (tomtom_gdf_to_nx_graph_2017
                        (frame_2017 [link_2017 5 4 4 3 1 "N" 1000 3
                                       [(0, 0); (1, 1); (0, 0)]%float])) in
   nodes G = {[4%Z]} ∧
   edges G = {[ (4%Z, 4%Z, IntId 5)
                  := edge_data (edge_ft_2017
                                  (link_2017 5 4 4 3 1 "N" 1000 3
                                     [(0, 0); (1, 1); (0, 0)]%float));
                (4%Z, 4%Z, IntId (-5))
                  := edge_data (edge_tf_2017
                                  (link_2017 5 4 4 3 1 "N" 1000 3
                                     [(0, 0); (1, 1); (0, 0)]%float)) ]} ∧
   size (edges G) = 2).
Proof.
  split.
  - apply (proj1 loop_road_edges road_loop (Some LATLON_CRS)); compute_done.
  - apply (proj2 loop_road_edges
             (link_2017 5 4 4 3 1 "N" 1000 3 [(0, 0); (1, 1); (0, 0)]%float)
             (Some LATLON_CRS)); first [compute_done|by_evaluation].
Defined.
